(** * VideoCAM signaling relay: connection and room registry, message router

    A shallow embedding of the two signaling servers of the repository,
    [src/video_server.py] (module [VideoServer], the variant with user
    profiles and room cleanup) and [src/main.py] (module [Main], the minimal
    variant), with the properties of the registry and of the handlers.

    Conventions of the embedding.
    - Python dictionaries are [gmap]s keyed by strings, room member lists are
      [list string] in insertion order.
    - An [async] handler is a computation in the monad [M]: it threads the
      [ConnectionManager], appends to the list of messages put on the wire
      and may raise a Python exception.  State changes and deliveries made
      before an exception are kept, as in Python.
    - The transport is external.  All the registry needs of a [WebSocket] is
      whether [send_json] on it succeeds or raises; [accept] succeeds.
    - [datetime.now()] stamps and [logger] calls have no influence on the
      registry or on routing; the [timestamp] and [joined_at] fields are left
      out of the messages and of the profile. *)

From stdpp Require Import gmap strings list fin_maps.

Local Open Scope string_scope.
Local Open Scope list_scope.

(** ** JSON payloads and inbound messages *)

(** Session descriptions and ICE candidates are relayed without being
    interpreted; the handlers only test them for truthiness. *)
#[local] Unset Elimination Schemes.
Inductive json :=
| JNull
| JBool (b : bool)
| JNum (n : Z)
| JStr (s : string)
| JArr (items : list json)
| JObj (fields : list (string * json)).
#[local] Set Elimination Schemes.

(** Python truth value of a decoded JSON value. *)
Definition truthy (j : json) : bool :=
  match j with
  | JNull => false
  | JBool b => b
  | JNum n => negb (n =? 0)%Z
  | JStr s => negb (String.eqb s "")
  | JArr items => negb (bool_decide (items = []))
  | JObj fields => negb (bool_decide (fields = []))
  end.

(** [x and ...] on the result of [data.get(key)]: [None] and empty values are
    false. *)
Definition truthy_str (o : option string) : bool :=
  match o with
  | Some s => negb (String.eqb s "")
  | None => false
  end.

Definition truthy_json (o : option json) : bool :=
  match o with
  | Some j => truthy j
  | None => false
  end.

(** The decoded inbound message [data].  A field is [None] when the key is
    absent.  The string-valued fields follow the message schema ([room],
    [username], [target] and [message] are strings).  A message whose
    [room] or [target] has another JSON type is outside this record: a list
    or an object there is unhashable, the handler raises [TypeError] at the
    first dictionary test, and the endpoint takes its [except] exit. *)
Record inbound := {
  m_type : option string;
  m_room : option string;
  m_username : option string;
  m_target : option string;
  m_offer : option json;
  m_answer : option json;
  m_candidate : option json;
  m_message : option string
}.

(** ** Channels *)

Record WebSocket := {
  ws_serial : nat;        (* which socket object this is *)
  ws_connected : bool     (* [send_json] succeeds iff the peer is still there *)
}.

(** ** Python lists *)

(** [l.remove(x)]: drops the first occurrence of [x].  The callers guard it
    with [x in l], so the [ValueError] of the unguarded call never shows. *)
Fixpoint list_remove (x : string) (l : list string) : list string :=
  match l with
  | [] => []
  | y :: l' => if decide (y = x) then l' else y :: list_remove x l'
  end.

(** Number of occurrences of [x] in [l]. *)
Definition occurrences (x : string) (l : list string) : nat :=
  length (filter (λ y, y = x) l).

(** ** The room table

    Both servers create a room on the first join and append to its member
    list. *)

(** [if room_id not in self.rooms: self.rooms[room_id] = []] *)
Definition create_room (room : string) (rs : gmap string (list string))
  : gmap string (list string) :=
  match rs !! room with
  | Some _ => rs
  | None => <[room := []]> rs
  end.

(** [self.rooms[room_id].append(client_id)] *)
Definition append_member (room client_id : string)
  (rs : gmap string (list string)) : gmap string (list string) :=
  alter (λ members, members ++ [client_id]) room rs.

(** ** Exceptions, state and the wire *)

Inductive exn :=
| KeyError (key : string)
| ChannelError.

Inductive outcome (A : Type) :=
| Ret (a : A)
| Raise (e : exn).
Arguments Ret {A} a.
Arguments Raise {A} e.

Section Monad.
Context {S E : Type}.

(** A computation over the registry [S] that puts events [E] on the wire. *)
Definition M (A : Type) : Type := S → outcome A * S * list E.

Definition ret {A} (a : A) : M A := λ s, (Ret a, s, []).

Definition bind {A B} (m : M A) (f : A → M B) : M B := λ s,
  match m s with
  | (Ret a, s1, out1) =>
      match f a s1 with
      | (r, s2, out2) => (r, s2, out1 ++ out2)
      end
  | (Raise e, s1, out1) => (Raise e, s1, out1)
  end.

Definition get : M S := λ s, (Ret s, s, []).
Definition modify (f : S → S) : M unit := λ s, (Ret (), f s, []).
Definition emit (e : E) : M unit := λ s, (Ret (), s, [e]).
Definition raise {A} (e : exn) : M A := λ s, (Raise e, s, []).

(** [try: m except Exception: h] *)
Definition try_except {A} (m : M A) (h : exn → M A) : M A := λ s,
  match m s with
  | (Ret a, s1, out1) => (Ret a, s1, out1)
  | (Raise e, s1, out1) =>
      match h e s1 with
      | (r, s2, out2) => (r, s2, out1 ++ out2)
      end
  end.

(** [for x in l: body(x)] *)
Fixpoint for_each {A} (l : list A) (body : A → M unit) : M unit :=
  match l with
  | [] => ret ()
  | x :: l' => bind (body x) (λ _, for_each l' body)
  end.
End Monad.
Arguments M : clear implicits.

(** Reading the result of a run: what was returned or raised, the registry
    afterwards, and what went on the wire. *)
Definition result_of {S E A} (r : outcome A * S * list E) : outcome A := r.1.1.
Definition state_of {S E A} (r : outcome A * S * list E) : S := r.1.2.
Definition wire_of {S E A} (r : outcome A * S * list E) : list E := r.2.

(** The messages that reached connection [client_id], in order.  A delivery
    is the pair of the connection id the channel is registered under and the
    message. *)
Definition received_by {Msg} (client_id : string) (out : list (string * Msg))
  : list Msg :=
  (filter (λ d, d.1 = client_id) out).*2.

(** [quiet m]: from every registry [m] returns, and leaves the registry as
    it found it.  What it sends is not constrained. *)
Definition quiet {S E A} (m : M S E A) : Prop :=
  ∀ s, ∃ a out, m s = (Ret a, s, out).

(** [keeps_state m]: [m] may send and may raise, and leaves the registry
    as it found it. *)
Definition keeps_state {S E A} (m : M S E A) : Prop :=
  ∀ s, state_of (m s) = s.

Declare Scope py_scope.
Delimit Scope py_scope with py.
Notation "x <- m ;; k" := (bind m (λ x, k))
  (at level 100, m at next level, right associativity) : py_scope.
Notation "m ;;; k" := (bind m (λ _, k))
  (at level 100, right associativity) : py_scope.
Local Open Scope py_scope.

(** ** Channels and messages for the examples *)

Definition socket (n : nat) : WebSocket :=
  {| ws_serial := n; ws_connected := true |}.

Definition dead_socket (n : nat) : WebSocket :=
  {| ws_serial := n; ws_connected := false |}.

Definition typed (ty : string) : inbound :=
  {| m_type := Some ty; m_room := None; m_username := None;
     m_target := None; m_offer := None; m_answer := None;
     m_candidate := None; m_message := None |}.

Definition join_msg (room name : string) : inbound :=
  {| m_type := Some "join"; m_room := Some room; m_username := Some name;
     m_target := None; m_offer := None; m_answer := None;
     m_candidate := None; m_message := None |}.

Definition leave_msg (room : string) : inbound :=
  {| m_type := Some "leave"; m_room := Some room; m_username := None;
     m_target := None; m_offer := None; m_answer := None;
     m_candidate := None; m_message := None |}.

(** ** [src/video_server.py] *)

Module VideoServer.

(** An entry of [user_info]. *)
Record UserInfo := {
  username : string;
  room_id : string
}.

(** An entry of the [participants] list of a [joined] message. *)
Record Participant := {
  p_client_id : string;
  p_username : string;
  p_room_id : string
}.

(** The messages the server sends, by their ["type"]. *)
Inductive message :=
| joined (room client_id name : string) (participants : list Participant)
| user_joined (client_id name : string) (should_initiate : bool)
| offer (sender : string) (payload : json)
| answer (sender : string) (payload : json)
| ice_candidate (sender : string) (payload : json)
| chat (sender text : string)
| pong
| user_left (client_id name : string).

Record ConnectionManager := {
  active_connections : gmap string WebSocket;
  rooms : gmap string (list string);
  user_info : gmap string UserInfo
}.

(** [ConnectionManager()] *)
Definition manager0 : ConnectionManager :=
  {| active_connections := ∅; rooms := ∅; user_info := ∅ |}.

(** A delivery: the message went out on the channel registered under the
    connection id. *)
Definition delivery : Type := string * message.

Abbreviation Handler := (M ConnectionManager delivery).

(** [websocket.send_json(message)] on the channel of [client_id]. *)
Definition send_json (ws : WebSocket) (client_id : string) (msg : message)
  : Handler unit :=
  if ws_connected ws then emit (client_id, msg) else raise ChannelError.

(** [ConnectionManager.connect] *)
Definition connect (websocket : WebSocket) (client_id : string)
  : Handler bool :=
  modify (λ s,
    {| active_connections := <[client_id := websocket]> (active_connections s);
       rooms := rooms s;
       user_info := user_info s |}) ;;;
  ret true.

(** [user_info.get(client_id, {}).get("room_id")] *)
Definition profile_room (s : ConnectionManager) (client_id : string)
  : option string :=
  room_id <$> user_info s !! client_id.

(** [user_info.get(client_id, {}).get("username", "Unknown")] *)
Definition profile_name (s : ConnectionManager) (client_id : string)
  : string :=
  default "Unknown" (username <$> user_info s !! client_id).

(** The room table after [disconnect] took [client_id] out of its room. *)
Definition rooms_without (client_id : string) (s : ConnectionManager)
  : gmap string (list string) :=
  match profile_room s client_id with
  | Some room =>
      if truthy_str (Some room) then
        match rooms s !! room with
        | Some members =>
            if decide (client_id ∈ members) then
              let members' := list_remove client_id members in
              if decide (members' = []) then delete room (rooms s)
              else <[room := members']> (rooms s)
            else rooms s
        | None => rooms s
        end
      else rooms s
  | None => rooms s
  end.

(** [ConnectionManager.disconnect] *)
Definition disconnect (client_id : string) (s : ConnectionManager)
  : ConnectionManager :=
  {| active_connections := delete client_id (active_connections s);
     rooms := rooms_without client_id s;
     user_info := delete client_id (user_info s) |}.

(** The list [other_users] that [join_room] builds from the member list. *)
Definition other_users (s : ConnectionManager) (client_id room : string)
  : list Participant :=
  (λ uid, {| p_client_id := uid;
             p_username := profile_name s uid;
             p_room_id := room |})
    <$> filter (λ uid, uid ≠ client_id) (default [] (rooms s !! room)).

(** [ConnectionManager.join_room] *)
Definition join_room (client_id room name : string)
  : Handler (list Participant) :=
  modify (λ s,
    {| active_connections := active_connections s;
       rooms := append_member room client_id (create_room room (rooms s));
       user_info :=
         <[client_id := {| username := name; room_id := room |}]>
           (user_info s) |}) ;;;
  s <- get ;;
  ret (other_users s client_id room).

(** [ConnectionManager.send_to_client] *)
Definition send_to_client (msg : message) (client_id : string)
  : Handler bool :=
  s <- get ;;
  match active_connections s !! client_id with
  | Some ws =>
      try_except (send_json ws client_id msg ;;; ret true)
                 (λ _, ret false)
  | None => ret false
  end.

(** [ConnectionManager.broadcast_to_room]; [exclude_client] defaults to
    [None]. *)
Definition broadcast_to_room (msg : message) (room : string)
  (exclude_client : option string) : Handler unit :=
  s <- get ;;
  match rooms s !! room with
  | Some members =>
      for_each members (λ client_id,
        if decide (Some client_id ≠ exclude_client)
        then (send_to_client msg client_id ;;; ret ())
        else ret ())
  | None => ret ()
  end.

(** [handle_join] *)
Definition handle_join (client_id : string) (data : inbound)
  : Handler unit :=
  let room := default "default" (m_room data) in
  let name := default "Anonymous" (m_username data) in
  others <- join_room client_id room name ;;
  (send_to_client (joined room client_id name others) client_id ;;;
   for_each others (λ existing_user,
     send_to_client (user_joined client_id name true)
                    (p_client_id existing_user) ;;;
     send_to_client (user_joined (p_client_id existing_user)
                                 (p_username existing_user) false)
                    client_id ;;;
     ret ())).

(** [handle_offer], [handle_answer] and [handle_ice_candidate] differ in
    the key they read and in the type of the message they relay. *)
Definition relay (wrap : string → json → message) (client_id : string)
  (target : option string) (payload : option json) : Handler unit :=
  match target, payload with
  | Some target_client_id, Some body =>
      if truthy_str target && truthy_json payload
      then (send_to_client (wrap client_id body) target_client_id ;;; ret ())
      else ret ()
  | _, _ => ret ()
  end.

Definition handle_offer (client_id : string) (data : inbound)
  : Handler unit :=
  relay offer client_id (m_target data) (m_offer data).

Definition handle_answer (client_id : string) (data : inbound)
  : Handler unit :=
  relay answer client_id (m_target data) (m_answer data).

Definition handle_ice_candidate (client_id : string) (data : inbound)
  : Handler unit :=
  relay ice_candidate client_id (m_target data) (m_candidate data).

(** [handle_chat] *)
Definition handle_chat (client_id : string) (data : inbound)
  : Handler unit :=
  match m_room data, m_message data with
  | Some room, Some text =>
      if truthy_str (m_room data) && truthy_str (m_message data) then
        s <- get ;;
        let name := profile_name s client_id in
        match rooms s !! room with
        | Some members =>
            for_each members (λ user_id,
              if decide (user_id ≠ client_id)
              then (send_to_client (chat name text) user_id ;;; ret ())
              else ret ())
        | None => ret ()
        end
      else ret ()
  | _, _ => ret ()
  end.

(** [handle_ping] *)
Definition handle_ping (client_id : string) : Handler unit :=
  send_to_client pong client_id ;;; ret ().

(** [handle_client_disconnect] *)
Definition handle_client_disconnect (client_id : string) : Handler unit :=
  s0 <- get ;;
  let room := profile_room s0 client_id in
  let name := profile_name s0 client_id in
  (modify (disconnect client_id) ;;;
   s <- get ;;
   match room with
   | Some r =>
       if truthy_str room then
         match rooms s !! r with
         | Some members =>
             for_each members (λ user_id,
               if decide (user_id ≠ client_id
                          ∧ is_Some (active_connections s !! user_id))
               then (send_to_client (user_left client_id name) user_id ;;;
                     ret ())
               else ret ())
         | None => ret ()
         end
       else ret ()
   | None => ret ()
   end).

(** [handle_websocket_message]: the dispatch on [data.get("type")].  A type
    without a branch falls through the [elif] chain. *)
Definition handle_websocket_message (client_id : string) (data : inbound)
  : Handler unit :=
  let message_type := m_type data in
  if decide (message_type = Some "join") then handle_join client_id data
  else if decide (message_type = Some "offer") then
    handle_offer client_id data
  else if decide (message_type = Some "answer") then
    handle_answer client_id data
  else if decide (message_type = Some "ice_candidate") then
    handle_ice_candidate client_id data
  else if decide (message_type = Some "chat") then
    handle_chat client_id data
  else if decide (message_type = Some "ping") then handle_ping client_id
  else ret ().

(** One turn of the loop of [websocket_endpoint]: the message read by
    [receive_json] is handled, and an exception of the handler takes the
    [except Exception] exit. *)
Definition on_message (client_id : string) (data : inbound)
  : Handler unit :=
  try_except (handle_websocket_message client_id data)
             (λ _, handle_client_disconnect client_id).

(** [receive_json] raised [WebSocketDisconnect]: the channel is closed. *)
Definition on_close (client_id : string) : Handler unit :=
  handle_client_disconnect client_id.

(** What happens at the endpoint. *)
Inductive op :=
| Connect (websocket : WebSocket) (client_id : string)
| Receive (client_id : string) (data : inbound)
| Close (client_id : string).

Definition perform (o : op) : Handler unit :=
  match o with
  | Connect websocket client_id => connect websocket client_id ;;; ret ()
  | Receive client_id data => on_message client_id data
  | Close client_id => on_close client_id
  end.

(** The member list of a room; a room that is not in the table has no
    members. *)
Definition room_members (s : ConnectionManager) (room : string)
  : list string :=
  default [] (rooms s !! room).

(** The registries that the endpoint can bring about, from the empty
    one. *)
Inductive reachable : ConnectionManager → Prop :=
| reachable_init : reachable manager0
| reachable_step s o :
    reachable s → reachable (state_of (perform o s)).

(** The discipline of a client that joins once per connection: a [join]
    comes from an id without a stored profile and names a room by a
    non-empty id. *)
Definition joins_once (s : ConnectionManager) (o : op) : Prop :=
  match o with
  | Receive client_id data =>
      m_type data = Some "join" →
      user_info s !! client_id = None
      ∧ default "default" (m_room data) ≠ ""
  | _ => True
  end.

Inductive reachable_joining_once : ConnectionManager → Prop :=
| joining_once_init : reachable_joining_once manager0
| joining_once_step s o :
    reachable_joining_once s → joins_once s o →
    reachable_joining_once (state_of (perform o s)).

(** The registry after a sequence of endpoint events, and what was sent
    meanwhile. *)
Fixpoint run (ops : list op) (s : ConnectionManager)
  : ConnectionManager * list delivery :=
  match ops with
  | [] => (s, [])
  | o :: ops' =>
      let r := perform o s in
      let r' := run ops' (state_of r) in
      (r'.1, wire_of r ++ r'.2)
  end.

(** *** Notions for the properties *)

(** A send to [client_id] goes through: the id is registered and its
    channel accepts the message. *)
Definition deliverable (s : ConnectionManager) (client_id : string) : bool :=
  match active_connections s !! client_id with
  | Some ws => ws_connected ws
  | None => false
  end.

(** What a loop of sends of [msg] over [targets] puts on the wire. *)
Definition deliveries (s : ConnectionManager) (msg : message)
  (targets : list string) : list delivery :=
  (λ c, (c, msg)) <$> filter (λ c, deliverable s c = true) targets.

(** The registry [join_room] leaves. *)
Definition joined_state (client_id room name : string)
  (s : ConnectionManager) : ConnectionManager :=
  {| active_connections := active_connections s;
     rooms := append_member room client_id (create_room room (rooms s));
     user_info :=
       <[client_id := {| username := name; room_id := room |}]>
         (user_info s) |}.

(** The registry [connect] leaves. *)
Definition connected_state (websocket : WebSocket) (client_id : string)
  (s : ConnectionManager) : ConnectionManager :=
  {| active_connections := <[client_id := websocket]> (active_connections s);
     rooms := rooms s;
     user_info := user_info s |}.

(** The notifications [handle_client_disconnect] sends once the registry
    is cleaned up. *)
Definition departure_notices (client_id : string) (room : option string)
  (name : string) (s : ConnectionManager) : list delivery :=
  match room with
  | Some r =>
      if truthy_str room then
        deliveries s (user_left client_id name)
          (filter (λ user_id,
                     user_id ≠ client_id
                     ∧ is_Some (active_connections s !! user_id))
                  (room_members s r))
      else []
  | None => []
  end.

(** The profile of a connection never names a room that does not list
    it. *)
Definition profile_in_room (s : ConnectionManager) : Prop :=
  ∀ c r, profile_room s c = Some r → c ∈ room_members s r.

(** What holds of the registries of clients that join once. *)
Record consistent (s : ConnectionManager) : Prop := {
  consistent_iff c r : c ∈ room_members s r ↔ profile_room s c = Some r;
  consistent_NoDup r : NoDup (room_members s r);
  consistent_unnamed : room_members s "" = []
}.

Definition send_if_up (s : ConnectionManager) (client_id : string)
  (msg : message) : list delivery :=
  if deliverable s client_id then [(client_id, msg)] else [].

(** The two notifications of [handle_join] for one existing member. *)
Definition introductions (s : ConnectionManager) (client_id name : string)
  (existing_user : Participant) : list delivery :=
  send_if_up s (p_client_id existing_user) (user_joined client_id name true)
  ++ send_if_up s client_id
       (user_joined (p_client_id existing_user) (p_username existing_user)
                    false).

(** *** Registries for the examples *)

(** Ann and Bob are in the lobby. *)
Definition lobby : ConnectionManager :=
  (run [Connect (socket 1) "c1"; Receive "c1" (join_msg "lobby" "Ann");
        Connect (socket 2) "c2"; Receive "c2" (join_msg "lobby" "Bob")]
       manager0).1.

(** Ann and Bob are connected and nobody has joined. *)
Definition pair : ConnectionManager :=
  (run [Connect (socket 1) "c1"; Connect (socket 2) "c2"] manager0).1.

(** Ann is alone in the lobby. *)
Definition alone : ConnectionManager :=
  (run [Connect (socket 1) "c1"; Receive "c1" (join_msg "lobby" "Ann")]
       manager0).1.

(** Ann is connected and has not joined; Bob's channel is registered but
    refuses sends. *)
Definition hallway : ConnectionManager :=
  (run [Connect (socket 1) "c1"; Connect (dead_socket 2) "c2"] manager0).1.

(** Ann joined [r1] and then [r2]. *)
Definition two_rooms : ConnectionManager :=
  (run [Connect (socket 1) "c1"; Receive "c1" (join_msg "r1" "Ann");
        Receive "c1" (join_msg "r2" "Ann")] manager0).1.

(** *** The claims as the specification words them *)

(** C1 as the specification words it. *)
Definition room_consistency (s : ConnectionManager) : Prop :=
  ∀ c r, c ∈ room_members s r ↔ profile_room s c = Some r.

(** The required fields of the message types, as the specification lists
    them. *)
Definition lacks_required_field (data : inbound) : Prop :=
  (m_type data = Some "join" ∧ m_room data = None)
  ∨ (m_type data = Some "offer"
     ∧ (m_target data = None ∨ m_offer data = None))
  ∨ (m_type data = Some "answer"
     ∧ (m_target data = None ∨ m_answer data = None))
  ∨ (m_type data = Some "ice_candidate"
     ∧ (m_target data = None ∨ m_candidate data = None))
  ∨ (m_type data = Some "chat"
     ∧ (m_room data = None ∨ m_message data = None)).

(** The same without the [join] case. *)
Definition lacks_relayed_field (data : inbound) : Prop :=
  (m_type data = Some "offer"
   ∧ (m_target data = None ∨ m_offer data = None))
  ∨ (m_type data = Some "answer"
     ∧ (m_target data = None ∨ m_answer data = None))
  ∨ (m_type data = Some "ice_candidate"
     ∧ (m_target data = None ∨ m_candidate data = None))
  ∨ (m_type data = Some "chat"
     ∧ (m_room data = None ∨ m_message data = None)).

(** [data] with the key ["room"] set. *)
Definition with_room (room : string) (data : inbound) : inbound :=
  {| m_type := m_type data; m_room := Some room;
     m_username := m_username data; m_target := m_target data;
     m_offer := m_offer data; m_answer := m_answer data;
     m_candidate := m_candidate data; m_message := m_message data |}.

(** No room of the table has an empty member list. *)
Definition no_empty_room (s : ConnectionManager) : Prop :=
  ∀ r members, rooms s !! r = Some members → members ≠ [].

(** *** The introspection endpoints *)

(** An entry of the [rooms] object of [get_stats]. *)
Record RoomStats := {
  st_users : list string;
  st_count : nat;
  st_usernames : list string
}.

(** The answer of [get_stats], without its time stamp. *)
Record Stats := {
  total_clients : nat;
  total_rooms : nat;
  stats_rooms : gmap string RoomStats
}.

(** [get_stats] *)
Definition get_stats (s : ConnectionManager) : Stats :=
  {| total_clients := size (active_connections s);
     total_rooms := size (rooms s);
     stats_rooms :=
       (λ users, {| st_users := users;
                    st_count := length users;
                    st_usernames := profile_name s <$> users |})
         <$> rooms s |}.

(** The answer of [health_check], without the address of the host and the
    time stamp. *)
Record Health := {
  h_status : string;
  h_clients : nat;
  h_rooms : nat;
  h_version : string
}.

(** [health_check] *)
Definition health_check (s : ConnectionManager) : Health :=
  {| h_status := "healthy";
     h_clients := size (active_connections s);
     h_rooms := size (rooms s);
     h_version := "1.0.0" |}.

(** The types [handle_websocket_message] has a branch for. *)
Definition dispatched (message_type : option string) : Prop :=
  message_type = Some "join" ∨ message_type = Some "offer"
  ∨ message_type = Some "answer" ∨ message_type = Some "ice_candidate"
  ∨ message_type = Some "chat" ∨ message_type = Some "ping".

(** A relayed or chat message one of whose fields is absent or has the truth
    value false, so that the [if ... and ...] of its handler fails. *)
Definition fails_field_test (data : inbound) : Prop :=
  (m_type data = Some "offer"
   ∧ (truthy_str (m_target data) = false
      ∨ truthy_json (m_offer data) = false))
  ∨ (m_type data = Some "answer"
     ∧ (truthy_str (m_target data) = false
        ∨ truthy_json (m_answer data) = false))
  ∨ (m_type data = Some "ice_candidate"
     ∧ (truthy_str (m_target data) = false
        ∨ truthy_json (m_candidate data) = false))
  ∨ (m_type data = Some "chat"
     ∧ (truthy_str (m_room data) = false
        ∨ truthy_str (m_message data) = false)).

(** Messages for the examples. *)
Definition offer_msg (target : string) (body : json) : inbound :=
  {| m_type := Some "offer"; m_room := None; m_username := None;
     m_target := Some target; m_offer := Some body; m_answer := None;
     m_candidate := None; m_message := None |}.

Definition answer_msg (target : string) (body : json) : inbound :=
  {| m_type := Some "answer"; m_room := None; m_username := None;
     m_target := Some target; m_offer := None; m_answer := Some body;
     m_candidate := None; m_message := None |}.

Definition ice_msg (target : string) (body : json) : inbound :=
  {| m_type := Some "ice_candidate"; m_room := None; m_username := None;
     m_target := Some target; m_offer := None; m_answer := None;
     m_candidate := Some body; m_message := None |}.

Definition chat_msg (room text : string) : inbound :=
  {| m_type := Some "chat"; m_room := Some room; m_username := None;
     m_target := None; m_offer := None; m_answer := None;
     m_candidate := None; m_message := Some text |}.

(** A session description. *)
Definition sdp : json := JObj [("type", JStr "offer"); ("sdp", JStr "v=0")].

(** Ann, Bob and Cleo are in the lobby; Bob's channel refuses sends. *)
Definition patchy_lobby : ConnectionManager :=
  (run [Connect (socket 1) "c1"; Receive "c1" (join_msg "lobby" "Ann");
        Connect (dead_socket 2) "c2"; Receive "c2" (join_msg "lobby" "Bob");
        Connect (socket 3) "c3"; Receive "c3" (join_msg "lobby" "Cleo")]
       manager0).1.

(** Ann is in the lobby; Bob joined it twice. *)
Definition twice_lobby : ConnectionManager :=
  (run [Connect (socket 1) "c1"; Receive "c1" (join_msg "lobby" "Ann");
        Connect (socket 2) "c2"; Receive "c2" (join_msg "lobby" "Bob");
        Receive "c2" (join_msg "lobby" "Bob")]
       manager0).1.

(** C6 as the specification words it: A is in room [r] with another member
    B, A's channel closes, and B receives exactly one [user_left] for A. *)
Definition disconnect_cleanup_as_worded : Prop :=
  ∀ s A B r,
    reachable s → profile_room s A = Some r →
    A ∈ room_members s r → B ∈ room_members s r → A ≠ B →
    deliverable s B = true →
    received_by B (wire_of (on_close A s))
    = [user_left A (profile_name s A)].

End VideoServer.

(** ** [src/main.py] *)

Module Main.

(** An entry of the [participants] list of a [room_info] message. *)
Record Participant := {
  p_id : string;
  p_username : string
}.

Inductive message :=
| user_joined (client_id name : string)
| room_info (room : string) (participants : list Participant)
| offer (sender : string) (payload : json)
| answer (sender : string) (payload : json)
| ice_candidate (sender : string) (payload : json)
| user_left (client_id : string).

Record ConnectionManager := {
  active_connections : gmap string WebSocket;
  rooms : gmap string (list string)
}.

Definition manager0 : ConnectionManager :=
  {| active_connections := ∅; rooms := ∅ |}.

Definition delivery : Type := string * message.

Abbreviation Handler := (M ConnectionManager delivery).

Definition send_json (ws : WebSocket) (client_id : string) (msg : message)
  : Handler unit :=
  if ws_connected ws then emit (client_id, msg) else raise ChannelError.

(** [ConnectionManager.connect] *)
Definition connect (websocket : WebSocket) (client_id : string)
  : Handler unit :=
  modify (λ s,
    {| active_connections := <[client_id := websocket]> (active_connections s);
       rooms := rooms s |}).

(** [ConnectionManager.disconnect]: the id is taken out of every room that
    lists it, once per room. *)
Definition disconnect (client_id : string) (s : ConnectionManager)
  : ConnectionManager :=
  {| active_connections := delete client_id (active_connections s);
     rooms := (λ clients,
                 if decide (client_id ∈ clients)
                 then list_remove client_id clients
                 else clients) <$> rooms s |}.

(** [ConnectionManager.send_to_client]: no [try], no return value. *)
Definition send_to_client (msg : message) (client_id : string)
  : Handler unit :=
  s <- get ;;
  match active_connections s !! client_id with
  | Some ws => send_json ws client_id msg
  | None => ret ()
  end.

(** [ConnectionManager.broadcast_to_room] *)
Definition broadcast_to_room (msg : message) (room : string)
  (exclude_client : option string) : Handler unit :=
  s <- get ;;
  match rooms s !! room with
  | Some members =>
      for_each members (λ client_id,
        if decide (Some client_id ≠ exclude_client) then
          match active_connections s !! client_id with
          | Some ws => send_json ws client_id msg
          | None => ret ()
          end
        else ret ())
  | None => ret ()
  end.

(** [data[key]] *)
Definition item {A} (key : string) (field : option A) : Handler A :=
  match field with
  | Some v => ret v
  | None => raise (KeyError key)
  end.

(** The [join] branch of [websocket_endpoint]. *)
Definition on_join (client_id : string) (data : inbound) : Handler unit :=
  room <- item "room" (m_room data) ;;
  (modify (λ s,
     {| active_connections := active_connections s;
        rooms := append_member room client_id (create_room room (rooms s)) |}) ;;;
   broadcast_to_room
     (user_joined client_id (default "Anonymous" (m_username data)))
     room (Some client_id) ;;;
   s <- get ;;
   send_to_client
     (room_info room
        ((λ cid, {| p_id := cid; p_username := "User" |})
           <$> filter (λ cid, cid ≠ client_id)
                      (default [] (rooms s !! room))))
     client_id).

(** The [offer], [answer] and [ice_candidate] branches. *)
Definition on_relay (wrap : string → json → message) (key : string)
  (client_id : string) (target : option string) (payload : option json)
  : Handler unit :=
  target_id <- item "target" target ;;
  body <- item key payload ;;
  send_to_client (wrap client_id body) target_id.

(** The [leave] branch. *)
Definition on_leave (client_id : string) (data : inbound) : Handler unit :=
  s <- get ;;
  match m_room data with
  | Some room =>
      match rooms s !! room with
      | Some members =>
          if decide (client_id ∈ members) then
            modify (λ s,
              {| active_connections := active_connections s;
                 rooms := <[room := list_remove client_id members]>
                            (rooms s) |}) ;;;
            broadcast_to_room (user_left client_id) room None
          else ret ()
      | None => ret ()
      end
  | None => ret ()
  end.

(** The body of the loop of [websocket_endpoint] for one received
    message, without the [except] clause around the loop; [endpoint_turn]
    below puts the clause around it. *)
Definition on_message (client_id : string) (data : inbound)
  : Handler unit :=
  let message_type := m_type data in
  if decide (message_type = Some "join") then on_join client_id data
  else if decide (message_type = Some "offer") then
    on_relay offer "offer" client_id (m_target data) (m_offer data)
  else if decide (message_type = Some "answer") then
    on_relay answer "answer" client_id (m_target data) (m_answer data)
  else if decide (message_type = Some "ice_candidate") then
    on_relay ice_candidate "candidate" client_id (m_target data)
             (m_candidate data)
  else if decide (message_type = Some "leave") then on_leave client_id data
  else ret ().

(** [receive_json] raised [WebSocketDisconnect]. *)
Definition on_close (client_id : string) : Handler unit :=
  modify (disconnect client_id).

(** *** Notions for the properties *)

Definition live (s : ConnectionManager) (client_id : string) : Prop :=
  is_Some (active_connections s !! client_id).

(** Every registered channel among [targets] accepts sends. *)
Definition channels_up (s : ConnectionManager) (targets : list string)
  : Prop :=
  ∀ u ws, u ∈ targets → active_connections s !! u = Some ws →
          ws_connected ws = true.

(** Ann and Bob are in the lobby of the minimal server. *)
Definition main_lobby : ConnectionManager :=
  {| active_connections :=
       {[ "c1" := socket 1; "c2" := socket 2 ]};
     rooms := {[ "lobby" := ["c1"; "c2"] ]} |}.

(** Ann is alone in the lobby of the minimal server; Bob is connected. *)
Definition main_alone_pair : ConnectionManager :=
  {| active_connections := {[ "c1" := socket 1; "c2" := socket 2 ]};
     rooms := {[ "lobby" := ["c1"] ]} |}.

(** Ann is alone in the lobby of the minimal server. *)
Definition main_alone : ConnectionManager :=
  {| active_connections := {[ "c1" := socket 1 ]};
     rooms := {[ "lobby" := ["c1"] ]} |}.

(** The room table after [client_id] left [room]. *)
Definition left_state (client_id room : string) (members : list string)
  (s : ConnectionManager) : ConnectionManager :=
  {| active_connections := active_connections s;
     rooms := <[room := list_remove client_id members]> (rooms s) |}.

(** C3 for [leave], as the specification words it. *)
Definition leave_deletes_empty_room : Prop :=
  ∀ s c r data,
    m_type data = Some "leave" → m_room data = Some r →
    rooms s !! r = Some [c] →
    rooms (state_of (on_message c data s)) !! r = None.

(** Bob's channel refuses sends; Cleo's works. *)
Definition main_patchy : ConnectionManager :=
  {| active_connections :=
       {[ "c1" := socket 1; "c2" := dead_socket 2; "c3" := socket 3 ]};
     rooms := {[ "lobby" := ["c1"; "c2"; "c3"] ]} |}.

(** *** The rest of [main.py], and notions for its properties *)

(** The answer of [health]. *)
Record Health := {
  h_status : string;
  h_clients : nat;
  h_rooms : nat
}.

(** [health] *)
Definition health (s : ConnectionManager) : Health :=
  {| h_status := "healthy";
     h_clients := size (active_connections s);
     h_rooms := size (rooms s) |}.

(** The types [websocket_endpoint] has a branch for. *)
Definition dispatched (message_type : option string) : Prop :=
  message_type = Some "join" ∨ message_type = Some "offer"
  ∨ message_type = Some "answer" ∨ message_type = Some "ice_candidate"
  ∨ message_type = Some "leave".

(** A send to [client_id] would be refused: the id is registered and its
    channel is gone. *)
Definition refuses (s : ConnectionManager) (client_id : string) : Prop :=
  ∃ ws, active_connections s !! client_id = Some ws
        ∧ ws_connected ws = false.

(** The registry after the [join] branch appended [client_id] to [room]. *)
Definition joined_state (client_id room : string) (s : ConnectionManager)
  : ConnectionManager :=
  {| active_connections := active_connections s;
     rooms := append_member room client_id (create_room room (rooms s)) |}.

(** The relayed types: the key of the payload, the message built from it and
    the payload as [data.get] would read it. *)
Definition relayed (data : inbound)
  : option (string * (string → json → message) * option json) :=
  if decide (m_type data = Some "offer") then
    Some ("offer", offer, m_offer data)
  else if decide (m_type data = Some "answer") then
    Some ("answer", answer, m_answer data)
  else if decide (m_type data = Some "ice_candidate") then
    Some ("candidate", ice_candidate, m_candidate data)
  else None.

(** Bob's channel refuses sends; Cleo's works. *)
Definition main_trio : ConnectionManager :=
  {| active_connections :=
       {[ "c1" := socket 1; "c2" := dead_socket 2; "c3" := socket 3 ]};
     rooms := {[ "lobby" := ["c1"; "c3"; "c2"; "c3"] ]} |}.

(** *** The endpoint with its [except] clause *)

(** What a refused [send_json] raises, which [ChannelError] stands for:
    Starlette raises [WebSocketDisconnect] when the peer is gone, and
    [RuntimeError] when the socket was closed from this side. *)
Inductive refusal :=
| PeerGone
| ClosedHere.

(** One turn of the loop of [websocket_endpoint] under its
    [except WebSocketDisconnect: manager.disconnect(client_id)].  No branch
    has a [try], so at most one send is refused in a turn, and [kind] is
    what that send raises.  A [WebSocketDisconnect] is caught and the
    sender is disconnected; a [KeyError] or a [RuntimeError] leaves the
    endpoint as it is raised. *)
Definition endpoint_turn (kind : refusal) (client_id : string)
  (data : inbound) : Handler unit :=
  try_except (on_message client_id data)
    (λ e, match e, kind with
          | ChannelError, PeerGone => modify (disconnect client_id)
          | _, _ => raise e
          end).

End Main.

(** * Properties *)

(** ** Handlers that neither raise nor touch the registry *)

Section MonadFacts.
Context {S E : Type}.
Implicit Types s : S.

Lemma quiet_ret {A} (a : A) : quiet (ret a : M S E A).
Proof. intros s. by exists a, []. Qed.

Lemma quiet_get : quiet (get : M S E S).
Proof. intros s. by exists s, []. Qed.

Lemma quiet_emit (e : E) : quiet (emit e : M S E unit).
Proof. intros s. by exists (), [e]. Qed.

Lemma quiet_bind {A B} (m : M S E A) (f : A → M S E B) :
  quiet m → (∀ a, quiet (f a)) → quiet (bind m f).
Proof.
  intros Hm Hf s. destruct (Hm s) as (a & out1 & Ha).
  destruct (Hf a s) as (b & out2 & Hb).
  exists b, (out1 ++ out2). unfold bind. by rewrite Ha, Hb.
Qed.

Lemma quiet_for_each {A} (l : list A) (body : A → M S E unit) :
  (∀ x, quiet (body x)) → quiet (for_each l body).
Proof.
  intros Hbody. induction l as [|x l IH]; simpl.
  - apply quiet_ret.
  - apply quiet_bind; [apply Hbody | intros _; apply IH].
Qed.

Lemma quiet_state {A} (m : M S E A) s : quiet m → state_of (m s) = s.
Proof. intros Hm. destruct (Hm s) as (a & out & ->). done. Qed.

Lemma quiet_returns {A} (m : M S E A) s :
  quiet m → ∃ a, result_of (m s) = Ret a.
Proof. intros Hm. destruct (Hm s) as (a & out & ->). by exists a. Qed.

(** A loop whose body, run from [s], returns and keeps [s]: the wire is the
    concatenation of what each turn sends. *)
Lemma for_each_run {A} (l : list A) (body : A → M S E unit)
  (sends : A → list E) s :
  (∀ x, x ∈ l → body x s = (Ret (), s, sends x)) →
  for_each l body s = (Ret (), s, concat (sends <$> l)).
Proof.
  induction l as [|x l IH]; intros Hbody; simpl; [done|].
  unfold bind. rewrite Hbody by left.
  rewrite IH; [done|]. intros y Hy. apply Hbody. by right.
Qed.

Lemma keeps_state_ret {A} (a : A) : keeps_state (ret a : M S E A).
Proof. done. Qed.

Lemma keeps_state_raise {A} (e : exn) : keeps_state (raise e : M S E A).
Proof. done. Qed.

Lemma keeps_state_emit (e : E) : keeps_state (emit e : M S E unit).
Proof. done. Qed.

Lemma keeps_state_bind {A B} (m : M S E A) (f : A → M S E B) :
  keeps_state m → (∀ a, keeps_state (f a)) → keeps_state (bind m f).
Proof.
  intros Hm Hf s. specialize (Hm s). unfold bind, state_of in *.
  destruct (m s) as [[[a|e] s1] out1]; cbn in Hm; subst s1; [|done].
  specialize (Hf a s). unfold state_of in Hf.
  by destruct (f a s) as [[r s2] out2].
Qed.

Lemma keeps_state_for_each {A} (l : list A) (body : A → M S E unit) :
  (∀ x, keeps_state (body x)) → keeps_state (for_each l body).
Proof.
  intros Hbody. induction l as [|x l IH]; [done|].
  cbn [for_each]. apply keeps_state_bind; [apply Hbody | intros _; apply IH].
Qed.

(** Running a sequence, by its first step. *)
Lemma bind_ret {A B} (a : A) (f : A → M S E B) s : bind (ret a) f s = f a s.
Proof. unfold bind, ret. by destruct (f a s) as [[r s2] out2]. Qed.

Lemma bind_get {B} (f : S → M S E B) s : bind get f s = f s s.
Proof. unfold bind, get. by destruct (f s s) as [[r s2] out2]. Qed.

Lemma bind_modify {B} (g : S → S) (f : unit → M S E B) s :
  bind (modify g) f s = f () (g s).
Proof. unfold bind, modify. by destruct (f () (g s)) as [[r s2] out2]. Qed.

Lemma bind_raise {A B} (e : exn) (f : A → M S E B) s :
  bind (raise e) f s = (Raise e, s, []).
Proof. done. Qed.

Lemma bind_quiet_step {A B} (m : M S E A) (f : A → M S E B) s a :
  m s = (Ret a, s, []) → bind m f s = f a s.
Proof.
  intros Hm. unfold bind. rewrite Hm. by destruct (f a s) as [[r s2] out2].
Qed.

Lemma try_except_ret {A} (m : M S E A) (h : exn → M S E A) s a s' out :
  m s = (Ret a, s', out) → try_except m h s = (Ret a, s', out).
Proof. intros Hm. unfold try_except. by rewrite Hm. Qed.
End MonadFacts.

(** ** Facts on member lists *)

Lemma list_remove_not_in x l : x ∉ l → list_remove x l = l.
Proof.
  induction l as [|y l IH]; intros Hx; simpl; [done|].
  rewrite not_elem_of_cons in Hx. destruct Hx as [Hne Hx].
  case_decide; [congruence|]. by rewrite IH.
Qed.

Lemma list_remove_other x y l : y ≠ x → y ∈ list_remove x l ↔ y ∈ l.
Proof.
  intros Hne. induction l as [|z l IH]; simpl; [done|].
  case_decide; subst; set_solver.
Qed.

Lemma list_remove_subseteq x l : list_remove x l ⊆ l.
Proof.
  induction l as [|z l IH]; simpl; [done|].
  case_decide; subst; set_solver.
Qed.

Lemma list_remove_NoDup x l : NoDup l → NoDup (list_remove x l).
Proof.
  induction 1 as [|z l Hz Hl IH]; simpl; [constructor|].
  case_decide; [done|]. constructor; [|done].
  intros Hin. apply Hz. by apply list_remove_subseteq in Hin.
Qed.

Lemma list_remove_NoDup_gone x l : NoDup l → x ∉ list_remove x l.
Proof.
  induction 1 as [|z l Hz Hl IH]; simpl; [set_solver|].
  case_decide; subst; [done|]. set_solver.
Qed.

Lemma filter_keeps_all (P : string → Prop) `{!∀ x, Decision (P x)}
  (l : list string) :
  (∀ y, y ∈ l → P y) → filter P l = l.
Proof.
  induction l as [|z l IH]; intros Hall; [done|].
  rewrite filter_cons_True by (apply Hall; left).
  f_equal. apply IH. intros y Hy. apply Hall. by right.
Qed.

Lemma list_remove_filter x l :
  NoDup l → list_remove x l = filter (λ y, y ≠ x) l.
Proof.
  induction 1 as [|z l Hz Hl IH]; simpl; [done|].
  case_decide; subst.
  - rewrite filter_cons_False by naive_solver.
    symmetry. apply filter_keeps_all. by intros y Hy ->.
  - rewrite filter_cons_True by done. by rewrite IH.
Qed.

Lemma occurrences_app x l1 l2 :
  occurrences x (l1 ++ l2) = occurrences x l1 + occurrences x l2.
Proof. unfold occurrences. by rewrite filter_app, length_app. Qed.

Lemma occurrences_pos x l : x ∈ l ↔ 0 < occurrences x l.
Proof.
  unfold occurrences. induction l as [|y l IH]; simpl.
  - split; [inversion 1 | lia].
  - destruct (decide (y = x)) as [->|Hne].
    + rewrite filter_cons_True by done. simpl. split; [lia | left].
    + rewrite filter_cons_False by done. rewrite <- IH. set_solver.
Qed.

Lemma occurrences_filter_keep (P : string → Prop) `{!∀ x, Decision (P x)}
  (x : string) (l : list string) :
  P x → occurrences x (filter P l) = occurrences x l.
Proof.
  intros HP. unfold occurrences. induction l as [|y l IH]; [done|].
  rewrite (filter_cons P). destruct (decide (P y)) as [Hy|Hy].
  - rewrite !(filter_cons (λ y, y = x)).
    case_decide; cbn [length]; by rewrite IH.
  - rewrite (filter_cons_False (λ y, y = x)) by congruence. done.
Qed.

Lemma occurrences_list_remove_ne x y l :
  y ≠ x → occurrences y (list_remove x l) = occurrences y l.
Proof.
  intros Hne. unfold occurrences. induction l as [|z l IH]; [done|].
  cbn [list_remove]. case_decide as Hz.
  - subst z. by rewrite (filter_cons_False (λ z, z = y)) by congruence.
  - rewrite !filter_cons. case_decide; cbn [length]; by rewrite IH.
Qed.

Lemma occurrences_NoDup x l : NoDup l → x ∈ l → occurrences x l = 1.
Proof.
  unfold occurrences. induction 1 as [|z l Hz Hl IH]; [by intros ?%elem_of_nil|].
  intros Hin. rewrite filter_cons. case_decide as Hx.
  - subst z. cbn [length]. f_equal.
    destruct (filter (λ y, y = x) l) as [|w ws] eqn:Hf; [done|].
    assert (w ∈ filter (λ y, y = x) l) as Hw by (rewrite Hf; left).
    apply list_elem_of_filter in Hw as [-> Hw]. done.
  - apply IH. apply elem_of_cons in Hin as [->|Hin]; [done|exact Hin].
Qed.

Lemma concat_guarded {B} (P : string → Prop) `{!∀ x, Decision (P x)}
  (f : string → B) (l : list string) :
  concat ((λ u, if decide (P u) then [f u] else []) <$> l) = f <$> filter P l.
Proof.
  induction l as [|u l IH]; [done|].
  cbn [fmap list_fmap concat]. rewrite filter_cons, IH. by case_decide.
Qed.

(** ** The rich server, [src/video_server.py] *)

Module VideoServerFacts.
Import VideoServer.

(** *** The delivery primitives *)

Lemma send_to_client_run msg client_id s :
  send_to_client msg client_id s =
    (Ret (deliverable s client_id), s,
     if deliverable s client_id then [(client_id, msg)] else []).
Proof.
  unfold send_to_client, deliverable, bind, get. simpl.
  destruct (active_connections s !! client_id) as [ws|]; [|done].
  unfold try_except, send_json, bind.
  destruct (ws_connected ws); done.
Qed.

Lemma quiet_send_to_client msg client_id : quiet (send_to_client msg client_id).
Proof. intros s. rewrite send_to_client_run. eauto. Qed.

Lemma send_then_ret_run msg client_id s :
  (send_to_client msg client_id ;;; ret ()) s =
    (Ret (), s, if deliverable s client_id then [(client_id, msg)] else []).
Proof.
  unfold bind. rewrite send_to_client_run. simpl. by rewrite app_nil_r.
Qed.

(** A loop that sends [msg] to those of [targets] that pass a test. *)
Lemma send_loop_run (P : string → Prop) `{!∀ c, Decision (P c)} msg
  (targets : list string) s :
  for_each targets (λ c,
    if decide (P c) then (send_to_client msg c ;;; ret ()) else ret ()) s =
    (Ret (), s, deliveries s msg (filter P targets)).
Proof.
  unfold deliveries.
  induction targets as [|c targets IH]; [done|].
  cbn [for_each]. unfold bind at 1. rewrite filter_cons.
  destruct (decide (P c)).
  - rewrite send_then_ret_run, IH. rewrite filter_cons.
    destruct (deliverable s c); by simpl.
  - unfold ret at 1. by rewrite IH.
Qed.

Lemma received_by_deliveries s msg targets client_id :
  deliverable s client_id = true →
  received_by client_id (deliveries s msg targets) =
    replicate (occurrences client_id targets) msg.
Proof.
  intros Hup. unfold received_by, deliveries, occurrences.
  induction targets as [|c targets IH]; [done|].
  rewrite !filter_cons. destruct (decide (c = client_id)) as [->|Hne].
  - rewrite decide_True by done. cbn [fmap list_fmap].
    rewrite filter_cons_True by done. cbn. by rewrite <- IH.
  - destruct (decide (deliverable s c = true)); [|done].
    cbn [fmap list_fmap]. by rewrite filter_cons_False.
Qed.

(** C5.  Unicast to an id that is not registered, or whose channel refuses
    the send, returns [False] without raising: the registry is the one
    the call started from (the target, if registered, still is, and every
    other entry is untouched) and nothing reaches any connection. *)
Theorem send_to_client_failure_contained (s : ConnectionManager)
  (msg : message) (target : string) :
  active_connections s !! target = None
  ∨ (∃ ws, active_connections s !! target = Some ws
           ∧ ws_connected ws = false) →
  send_to_client msg target s = (Ret false, s, []).
Proof.
  intros Hdead. rewrite send_to_client_run.
  assert (deliverable s target = false) as ->; [|done].
  unfold deliverable. destruct Hdead as [-> | (ws & -> & ->)]; done.
Qed.

(** C4.  A room broadcast returns without raising and without touching the
    registry, and what it puts on the wire is [msg] for the members of the
    room, in member-list order, leaving out the excluded id and the members
    whose send fails: a failed send costs only its own recipient.  A room
    id that is not in the table has no members, so nothing happens. *)
Theorem broadcast_to_room_delivers (s : ConnectionManager) (msg : message)
  (room : string) (exclude_client : option string) :
  broadcast_to_room msg room exclude_client s =
    (Ret (), s,
     deliveries s msg
       (filter (λ c, Some c ≠ exclude_client)
               (default [] (rooms s !! room)))).
Proof.
  unfold broadcast_to_room, bind at 1, get.
  destruct (rooms s !! room) as [members|]; [|done].
  cbn [default].
  by rewrite (send_loop_run (λ c, Some c ≠ exclude_client)).
Qed.

(** *** The registry after each handler *)

Lemma rooms_after_append room client_id (rs : gmap string (list string)) :
  append_member room client_id (create_room room rs) =
    <[room := default [] (rs !! room) ++ [client_id]]> rs.
Proof.
  unfold append_member, create_room. apply map_eq. intros r.
  destruct (rs !! room) as [members|] eqn:Hroom; simpl.
  - destruct (decide (r = room)) as [->|Hne].
    + by rewrite lookup_alter_eq, Hroom, lookup_insert_eq.
    + by rewrite lookup_alter_ne, lookup_insert_ne.
  - destruct (decide (r = room)) as [->|Hne].
    + by rewrite lookup_alter_eq, !lookup_insert_eq.
    + by rewrite lookup_alter_ne, !lookup_insert_ne.
Qed.

Lemma join_room_run client_id room name s :
  join_room client_id room name s =
    (Ret (other_users (joined_state client_id room name s) client_id room),
     joined_state client_id room name s, []).
Proof. reflexivity. Qed.

Lemma quiet_join_notifications client_id name others :
  quiet (for_each others (λ existing_user : Participant,
    send_to_client (user_joined client_id name true)
                   (p_client_id existing_user) ;;;
    send_to_client (user_joined (p_client_id existing_user)
                                (p_username existing_user) false)
                   client_id ;;;
    ret ())).
Proof.
  apply quiet_for_each. intros p.
  repeat (apply quiet_bind; [apply quiet_send_to_client | intros _]).
  apply quiet_ret.
Qed.

Lemma handle_join_shape client_id data s :
  ∃ out,
    handle_join client_id data s =
      (Ret (),
       joined_state client_id (default "default" (m_room data))
                    (default "Anonymous" (m_username data)) s,
       out).
Proof.
  unfold handle_join. unfold bind at 1. rewrite join_room_run.
  set (s' := joined_state _ _ _ s). set (others := other_users _ _ _).
  assert (quiet
    (send_to_client
       (joined (default "default" (m_room data)) client_id
               (default "Anonymous" (m_username data)) others) client_id ;;;
     for_each others (λ existing_user : Participant,
       send_to_client
         (user_joined client_id (default "Anonymous" (m_username data)) true)
         (p_client_id existing_user) ;;;
       send_to_client
         (user_joined (p_client_id existing_user)
                      (p_username existing_user) false) client_id ;;;
       ret ()))) as Hq.
  { apply quiet_bind; [apply quiet_send_to_client | intros _].
    apply quiet_join_notifications. }
  destruct (Hq s') as ([] & out & ->). by exists out.
Qed.

Lemma quiet_relay wrap client_id target payload :
  quiet (relay wrap client_id target payload).
Proof.
  unfold relay. destruct target, payload; try apply quiet_ret.
  destruct (_ && _); [|apply quiet_ret].
  apply quiet_bind; [apply quiet_send_to_client | intros _; apply quiet_ret].
Qed.

Lemma quiet_guarded_send (P : string → Prop) `{!∀ c, Decision (P c)}
  msg (targets : list string) :
  quiet (for_each targets (λ c,
    if decide (P c) then (send_to_client msg c ;;; ret ()) else ret ())).
Proof. intros s. rewrite send_loop_run. eauto. Qed.

Lemma quiet_handle_chat client_id data : quiet (handle_chat client_id data).
Proof.
  unfold handle_chat.
  destruct (m_room data) as [room|], (m_message data) as [text|];
    try apply quiet_ret.
  destruct (_ && _); [|apply quiet_ret].
  intros s. unfold bind at 1, get.
  destruct (rooms s !! room) as [members|]; [|by exists (), []].
  rewrite (send_loop_run (λ c, c ≠ client_id)). eauto.
Qed.

Lemma quiet_handle_ping client_id : quiet (handle_ping client_id).
Proof.
  apply quiet_bind; [apply quiet_send_to_client | intros _; apply quiet_ret].
Qed.

Lemma handle_client_disconnect_run client_id s :
  handle_client_disconnect client_id s =
    (Ret (), disconnect client_id s,
     departure_notices client_id (profile_room s client_id)
                       (profile_name s client_id) (disconnect client_id s)).
Proof.
  unfold handle_client_disconnect, departure_notices.
  unfold bind at 1, get. unfold bind at 1, modify. unfold bind at 1.
  set (s' := disconnect client_id s).
  destruct (profile_room s client_id) as [r|]; [|done].
  destruct (truthy_str (Some r)); [|done].
  unfold room_members.
  destruct (rooms s' !! r) as [members|]; [|done].
  cbn [default].
  by rewrite (send_loop_run
    (λ user_id, user_id ≠ client_id
                ∧ is_Some (active_connections s' !! user_id))).
Qed.

(** No handler of the dispatch raises. *)
Lemma handle_websocket_message_returns client_id data s :
  ∃ s' out, handle_websocket_message client_id data s = (Ret (), s', out).
Proof.
  unfold handle_websocket_message.
  repeat case_decide.
  - destruct (handle_join_shape client_id data s) as (out & ->). eauto.
  - destruct (quiet_relay offer client_id (m_target data) (m_offer data) s)
      as ([] & out & Hr). unfold handle_offer. rewrite Hr. eauto.
  - destruct (quiet_relay answer client_id (m_target data) (m_answer data) s)
      as ([] & out & Hr). unfold handle_answer. rewrite Hr. eauto.
  - destruct (quiet_relay ice_candidate client_id (m_target data)
                          (m_candidate data) s)
      as ([] & out & Hr). unfold handle_ice_candidate. rewrite Hr. eauto.
  - destruct (quiet_handle_chat client_id data s) as ([] & out & ->). eauto.
  - destruct (quiet_handle_ping client_id s) as ([] & out & ->). eauto.
  - by exists s, [].
Qed.

(** So the [except Exception] exit of the endpoint is never taken. *)
Lemma on_message_run client_id data s :
  on_message client_id data s = handle_websocket_message client_id data s.
Proof.
  unfold on_message.
  destruct (handle_websocket_message_returns client_id data s)
    as (s' & out & Hr).
  by rewrite (try_except_ret _ _ _ _ _ _ Hr).
Qed.

(** Only a [join] changes the registry. *)
Lemma on_message_state client_id data s :
  state_of (on_message client_id data s) =
    if decide (m_type data = Some "join")
    then joined_state client_id (default "default" (m_room data))
                      (default "Anonymous" (m_username data)) s
    else s.
Proof.
  rewrite on_message_run. unfold handle_websocket_message.
  case_decide as Hjoin.
  { destruct (handle_join_shape client_id data s) as (out & ->). done. }
  repeat case_decide.
  - apply quiet_state, quiet_relay.
  - apply quiet_state, quiet_relay.
  - apply quiet_state, quiet_relay.
  - apply quiet_state, quiet_handle_chat.
  - apply quiet_state, quiet_handle_ping.
  - done.
Qed.

Lemma perform_state o s :
  state_of (perform o s) =
    match o with
    | Connect websocket client_id => connected_state websocket client_id s
    | Receive client_id data => state_of (on_message client_id data s)
    | Close client_id => disconnect client_id s
    end.
Proof.
  destruct o as [ws c|c data|c]; simpl; [done|done|].
  unfold on_close. by rewrite handle_client_disconnect_run.
Qed.

Lemma perform_returns o s : result_of (perform o s) = Ret ().
Proof.
  destruct o as [ws c|c data|c]; simpl; [done| |].
  - rewrite on_message_run.
    by destruct (handle_websocket_message_returns c data s) as (s' & out & ->).
  - unfold on_close. by rewrite handle_client_disconnect_run.
Qed.

(** *** Member lists after a join and after a disconnect *)

Lemma room_members_joined client_id room name s r :
  room_members (joined_state client_id room name s) r =
    if decide (r = room) then room_members s r ++ [client_id]
    else room_members s r.
Proof.
  unfold room_members, joined_state. cbn [rooms].
  rewrite rooms_after_append. case_decide as Hr.
  - subst r. by rewrite lookup_insert_eq.
  - by rewrite lookup_insert_ne.
Qed.

Lemma profile_room_joined client_id room name s c :
  profile_room (joined_state client_id room name s) c =
    if decide (c = client_id) then Some room else profile_room s c.
Proof.
  unfold profile_room, joined_state. cbn [user_info]. case_decide as Hc.
  - subst c. by rewrite lookup_insert_eq.
  - by rewrite lookup_insert_ne.
Qed.

Lemma profile_room_disconnect client_id s c :
  profile_room (disconnect client_id s) c =
    if decide (c = client_id) then None else profile_room s c.
Proof.
  unfold profile_room, disconnect. cbn [user_info]. case_decide as Hc.
  - subst c. by rewrite lookup_delete_eq.
  - by rewrite lookup_delete_ne.
Qed.

Lemma truthy_str_Some (r : string) : truthy_str (Some r) = true ↔ r ≠ "".
Proof.
  simpl. destruct (String.eqb_spec r ""); simpl; split; congruence.
Qed.

(** [disconnect] takes one occurrence of the id out of the room its
    profile names, when that name is not the empty string, and touches no
    other member list. *)
Lemma room_members_disconnect client_id s r :
  room_members (disconnect client_id s) r =
    if decide (profile_room s client_id = Some r ∧ r ≠ "")
    then list_remove client_id (room_members s r)
    else room_members s r.
Proof.
  unfold room_members, disconnect. cbn [rooms]. unfold rooms_without.
  destruct (profile_room s client_id) as [r0|] eqn:Hprof;
    [|by rewrite decide_False by naive_solver].
  destruct (truthy_str (Some r0)) eqn:Htruthy.
  2:{ rewrite decide_False; [done|]. intros [[= ->] Hne].
      apply truthy_str_Some in Hne. congruence. }
  apply truthy_str_Some in Htruthy.
  destruct (decide (r = r0)) as [->|Hne].
  2:{ rewrite decide_False by naive_solver.
      destruct (rooms s !! r0) as [members|]; [|done].
      repeat case_decide; try done.
      - by rewrite lookup_delete_ne.
      - by rewrite lookup_insert_ne. }
  rewrite decide_True by done.
  destruct (rooms s !! r0) as [members|] eqn:Hroom; simpl;
    [|by rewrite Hroom].
  destruct (decide (client_id ∈ members)) as [Hin|Hout].
  - case_decide as Hempty.
    + by rewrite lookup_delete_eq, Hempty.
    + by rewrite lookup_insert_eq.
  - rewrite Hroom. simpl. by rewrite list_remove_not_in.
Qed.

(** *** The room field and the member lists, step by step *)

Lemma profile_in_room_step s o :
  profile_in_room s → profile_in_room (state_of (perform o s)).
Proof.
  intros Hinv. rewrite perform_state.
  destruct o as [ws c0|c0 data|c0].
  - exact Hinv.
  - rewrite on_message_state. case_decide; [|exact Hinv].
    intros c r. rewrite profile_room_joined, room_members_joined.
    case_decide as Hc.
    + intros [= <-]. rewrite decide_True by done. subst c. set_solver.
    + intros Hprof. apply Hinv in Hprof. case_decide; set_solver.
  - intros c r. rewrite profile_room_disconnect, room_members_disconnect.
    case_decide as Hc; [done|].
    intros Hprof. apply Hinv in Hprof.
    case_decide; [|done]. by apply list_remove_other.
Qed.

Lemma reachable_profile_in_room s : reachable s → profile_in_room s.
Proof.
  induction 1 as [|s o _ IH]; [|by apply profile_in_room_step].
  intros c r. unfold profile_room. cbn. by rewrite lookup_empty.
Qed.

Lemma consistent_init : consistent manager0.
Proof.
  split.
  - intros c r. unfold room_members, profile_room. cbn.
    rewrite !lookup_empty. cbn. split; [by intros ?%elem_of_nil | done].
  - intros r. unfold room_members. cbn. rewrite lookup_empty. constructor.
  - unfold room_members. cbn. by rewrite lookup_empty.
Qed.

Lemma consistent_join s client_id room name :
  consistent s → user_info s !! client_id = None → room ≠ "" →
  consistent (joined_state client_id room name s).
Proof.
  intros [Hiff Hnodup Hunnamed] Hnew Hroom.
  assert (∀ r, client_id ∉ room_members s r) as Hfresh.
  { intros r Hin. apply Hiff in Hin. unfold profile_room in Hin.
    by rewrite Hnew in Hin. }
  split.
  - intros c r. rewrite profile_room_joined, room_members_joined.
    destruct (decide (c = client_id)) as [->|Hc];
      destruct (decide (r = room)) as [->|Hr].
    + set_solver.
    + split; [by intros ?%Hfresh | congruence].
    + rewrite <- Hiff. set_solver.
    + apply Hiff.
  - intros r. rewrite room_members_joined. case_decide; [|done].
    apply NoDup_app. split_and!; [done| |apply NoDup_singleton].
    intros c Hc ->%list_elem_of_singleton. by apply (Hfresh r).
  - rewrite room_members_joined. by rewrite decide_False by done.
Qed.

Lemma consistent_disconnect s client_id :
  consistent s → consistent (disconnect client_id s).
Proof.
  intros [Hiff Hnodup Hunnamed].
  assert (∀ r, profile_room s client_id = Some r → r ≠ "") as Hnamed.
  { intros r Hprof ->. apply Hiff in Hprof. rewrite Hunnamed in Hprof.
    by apply elem_of_nil in Hprof. }
  split.
  - intros c r. rewrite profile_room_disconnect, room_members_disconnect.
    destruct (decide (c = client_id)) as [->|Hc]; case_decide as Hr.
    + split; [|done]. by intros ?%list_remove_NoDup_gone.
    + split; [|done]. intros Hin%Hiff. naive_solver.
    + rewrite list_remove_other by done. apply Hiff.
    + apply Hiff.
  - intros r. rewrite room_members_disconnect.
    case_decide; [by apply list_remove_NoDup | done].
  - rewrite room_members_disconnect. by rewrite decide_False by naive_solver.
Qed.

Lemma consistent_step s o :
  consistent s → joins_once s o → consistent (state_of (perform o s)).
Proof.
  intros Hinv Honce. rewrite perform_state.
  destruct o as [ws c0|c0 data|c0].
  - destruct Hinv as [Hiff Hnodup Hunnamed]. by split.
  - rewrite on_message_state. case_decide as Hjoin; [|done].
    destruct (Honce Hjoin) as [Hnew Hroom]. by apply consistent_join.
  - by apply consistent_disconnect.
Qed.

Lemma reachable_joining_once_consistent s :
  reachable_joining_once s → consistent s.
Proof.
  induction 1 as [|s o _ IH Honce];
    [apply consistent_init | by apply consistent_step].
Qed.

Lemma run_reachable ops s : reachable s → reachable (run ops s).1.
Proof.
  revert s. induction ops as [|o ops IH]; intros s Hs; [done|].
  cbn [run]. apply IH. by constructor.
Qed.

(** *** What a join puts on the wire *)

Lemma handle_join_run client_id data s :
  let room := default "default" (m_room data) in
  let name := default "Anonymous" (m_username data) in
  let s' := joined_state client_id room name s in
  let others := other_users s' client_id room in
  handle_join client_id data s =
    (Ret (), s',
     send_if_up s' client_id (joined room client_id name others)
     ++ concat (introductions s' client_id name <$> others)).
Proof.
  intros room name s' others.
  unfold handle_join. fold room name.
  unfold bind at 1. rewrite join_room_run. fold s' others.
  unfold bind at 1. rewrite send_to_client_run.
  rewrite (for_each_run others _ (introductions s' client_id name)).
  { done. }
  intros p _. unfold bind at 1. rewrite send_to_client_run.
  unfold bind at 1. rewrite send_to_client_run.
  unfold introductions, send_if_up, ret. by rewrite app_nil_r.
Qed.

Lemma deliverable_joined client_id room name s c :
  deliverable (joined_state client_id room name s) c = deliverable s c.
Proof. done. Qed.

Lemma received_by_app {Msg} c (out1 out2 : list (string * Msg)) :
  received_by c (out1 ++ out2) = received_by c out1 ++ received_by c out2.
Proof. unfold received_by. by rewrite filter_app, fmap_app. Qed.

Lemma received_by_cons {Msg} c c' (msg : Msg) (out : list (string * Msg)) :
  received_by c ((c', msg) :: out) =
    if decide (c' = c) then msg :: received_by c out else received_by c out.
Proof.
  unfold received_by. rewrite filter_cons. cbn [fst]. by case_decide.
Qed.

Lemma on_message_join client_id data s :
  m_type data = Some "join" →
  on_message client_id data s = handle_join client_id data s.
Proof.
  intros Hjoin. rewrite on_message_run. unfold handle_websocket_message.
  by rewrite decide_True.
Qed.

Lemma other_users_members s client_id room :
  other_users s client_id room =
    (λ uid, {| p_client_id := uid;
               p_username := profile_name s uid;
               p_room_id := room |})
      <$> filter (λ uid, uid ≠ client_id) (room_members s room).
Proof. done. Qed.

Lemma profile_name_joined client_id room name s c :
  profile_name (joined_state client_id room name s) c =
    if decide (c = client_id) then name else profile_name s c.
Proof.
  unfold profile_name, joined_state. cbn [user_info]. case_decide as Hc.
  - subst c. by rewrite lookup_insert_eq.
  - by rewrite lookup_insert_ne.
Qed.

(** C2.  A and B are two connections with working channels and nobody is
    in room [r].  A joins [r], then B joins [r].  B's join puts exactly
    three messages on the wire: [joined] to B, whose participants are A
    alone; [user_joined] for B to A with [should_initiate] true; and
    [user_joined] for A to B with [should_initiate] false. *)
Theorem join_snapshot_exact (s : ConnectionManager) (A B r : string)
  (joinA joinB : inbound) :
  A ≠ B →
  deliverable s A = true → deliverable s B = true →
  room_members s r = [] →
  m_type joinA = Some "join" → m_room joinA = Some r →
  m_type joinB = Some "join" → m_room joinB = Some r →
  let nameA := default "Anonymous" (m_username joinA) in
  let nameB := default "Anonymous" (m_username joinB) in
  let s1 := state_of (on_message A joinA s) in
  let out := wire_of (on_message B joinB s1) in
  let snapshot :=
    [{| p_client_id := A; p_username := nameA; p_room_id := r |}] in
  out = [(B, joined r B nameB snapshot);
         (A, user_joined B nameB true);
         (B, user_joined A nameA false)]
  ∧ received_by B out = [joined r B nameB snapshot; user_joined A nameA false]
  ∧ received_by A out = [user_joined B nameB true].
Proof.
  intros Hne HupA HupB Hempty HtA HrA HtB HrB nameA nameB s1 out snapshot.
  assert (out = [(B, joined r B nameB snapshot);
                 (A, user_joined B nameB true);
                 (B, user_joined A nameA false)]) as Hout.
  { subst out s1. rewrite !on_message_join by done.
    rewrite !handle_join_run. rewrite HrA, HrB.
    cbn [default from_option id state_of wire_of fst snd].
    fold nameA nameB.
    set (sA := joined_state A r nameA s).
    set (sB := joined_state B r nameB sA).
    assert (other_users sB B r = snapshot) as ->.
    { rewrite other_users_members. subst sB sA.
      rewrite !room_members_joined, !decide_True by done.
      rewrite Hempty. cbn [app].
      rewrite filter_cons_True by done.
      rewrite filter_cons_False by naive_solver. rewrite filter_nil.
      cbn [fmap list_fmap]. rewrite !profile_name_joined.
      rewrite decide_False by done. by rewrite decide_True. }
    unfold snapshot. cbn [fmap list_fmap concat].
    unfold introductions, send_if_up. cbn [p_client_id p_username].
    subst sB sA. rewrite !deliverable_joined, HupA, HupB. done. }
  split; [done|]. rewrite Hout.
  rewrite !received_by_cons. unfold received_by. rewrite filter_nil.
  destruct (decide (A = A)), (decide (B = B)), (decide (A = B)),
    (decide (B = A)); done.
Qed.

Lemma lobby_joining_once : reachable_joining_once lobby.
Proof.
  unfold lobby. cbn [run fst].
  repeat (apply joining_once_step); try exact joining_once_init;
    try exact I; intros _; split; vm_compute; congruence.
Qed.

(** *** C1: a second join, and clients that join once *)

(** C1, counterexample.  A connection that joins [r1] and then [r2] stays
    in the member list of [r1], while its profile names [r2]: the registry
    is reachable and the equivalence fails in it. *)
Lemma room_consistency_fails_on_rejoin :
  ¬ (∀ s, reachable s → room_consistency s).
Proof.
  intros Hclaim.
  assert (reachable two_rooms) as Hreach
    by (apply run_reachable, reachable_init).
  destruct (Hclaim two_rooms Hreach "c1" "r1") as [Hprofile _].
  assert ("c1" ∈ room_members two_rooms "r1") as Hin
    by (vm_compute; left).
  apply Hprofile in Hin. vm_compute in Hin. discriminate Hin.
Qed.

(** C1, amended.  In every reachable registry a profile that names room
    [r] belongs to a connection listed in [r].  When every join comes from
    a connection without a stored profile and names a non-empty room id,
    the converse holds too: a connection is in the member list of [r] iff
    its profile names [r], it is in at most one member list, and at most
    once. *)
Theorem room_consistency_joining_once (s : ConnectionManager) :
  (reachable s →
   ∀ c r, profile_room s c = Some r → c ∈ room_members s r)
  ∧ (reachable_joining_once s →
     room_consistency s
     ∧ (∀ c r1 r2,
          c ∈ room_members s r1 → c ∈ room_members s r2 → r1 = r2)
     ∧ (∀ r, NoDup (room_members s r))).
Proof.
  split.
  - intros Hreach. by apply reachable_profile_in_room.
  - intros Hreach%reachable_joining_once_consistent.
    destruct Hreach as [Hiff Hnodup _]. split_and!; [done| |done].
    intros c r1 r2 H1%Hiff H2%Hiff. congruence.
Qed.

Lemma reachable_joining_once_reachable s :
  reachable_joining_once s → reachable s.
Proof. induction 1; by constructor. Qed.

(** The theorem at the registry where Ann and Bob are in the lobby. *)
Lemma room_consistency_joining_once_witness :
  (∀ c r, profile_room lobby c = Some r → c ∈ room_members lobby r)
  ∧ room_consistency lobby
  ∧ (∀ c r1 r2,
       c ∈ room_members lobby r1 → c ∈ room_members lobby r2 → r1 = r2)
  ∧ (∀ r, NoDup (room_members lobby r)).
Proof.
  destruct (room_consistency_joining_once lobby) as [Hfwd Hiff].
  split.
  - apply Hfwd, reachable_joining_once_reachable, lobby_joining_once.
  - apply Hiff, lobby_joining_once.
Defined.

(** *** C6: a disconnect is announced to the room *)

Lemma deliverable_disconnect client_id s c :
  c ≠ client_id → deliverable (disconnect client_id s) c = deliverable s c.
Proof.
  intros Hne. unfold deliverable, disconnect. cbn [active_connections].
  by rewrite lookup_delete_ne.
Qed.

Lemma deliverable_is_Some s c :
  deliverable s c = true → is_Some (active_connections s !! c).
Proof. unfold deliverable. destruct (_ !! c); [eauto|done]. Qed.

Lemma room_members_nonempty_lookup s r members :
  room_members s r = members → members ≠ [] → rooms s !! r = Some members.
Proof.
  unfold room_members. destruct (rooms s !! r); simpl; congruence.
Qed.

(** C6, amended.  The profile of A names [r], which is not the empty
    string; A is in room [r] with B, each member listed once, and B's
    channel works.  When A's channel closes, B receives exactly one
    [user_left] for A, A is unregistered, and [r] stays in the room table
    with the members other than A, B among them. *)
Theorem disconnect_notifies_room (s : ConnectionManager) (A B r : string) :
  profile_room s A = Some r → r ≠ "" →
  NoDup (room_members s r) →
  A ∈ room_members s r → B ∈ room_members s r → A ≠ B →
  deliverable s B = true →
  let after := on_close A s in
  let remaining := filter (λ c, c ≠ A) (room_members s r) in
  received_by B (wire_of after) = [user_left A (profile_name s A)]
  ∧ rooms (state_of after) !! r = Some remaining
  ∧ remaining ≠ []
  ∧ (B ∈ remaining) ∧ (A ∉ remaining)
  ∧ active_connections (state_of after) !! A = None.
Proof.
  intros Hprof Hr Hnodup HA HB Hne Hup after remaining.
  subst after. unfold on_close. rewrite handle_client_disconnect_run.
  cbn [wire_of state_of fst snd].
  assert (room_members (disconnect A s) r = remaining) as Hrem.
  { rewrite room_members_disconnect, decide_True by done.
    by apply list_remove_filter. }
  assert (B ∈ remaining) as HBrem.
  { apply list_elem_of_filter. split; [congruence|done]. }
  assert (remaining ≠ []) as Hnonempty.
  { intros Hnil. rewrite Hnil in HBrem. by apply elem_of_nil in HBrem. }
  split_and!; try done.
  - unfold departure_notices. rewrite Hprof.
    rewrite (proj2 (truthy_str_Some r) Hr), Hrem.
    rewrite received_by_deliveries; [|by rewrite deliverable_disconnect].
    rewrite occurrences_filter_keep.
    + unfold remaining.
      rewrite (occurrences_filter_keep (λ c, c ≠ A)) by congruence.
      by rewrite occurrences_NoDup.
    + split; [congruence|]. apply deliverable_is_Some.
      by rewrite deliverable_disconnect.
  - by apply room_members_nonempty_lookup.
  - intros [HAA _]%list_elem_of_filter. done.
  - cbn. apply lookup_delete_eq.
Qed.

(** Ann and Bob are in the lobby and Ann's channel closes. *)
Lemma disconnect_notifies_room_witness :
  received_by "c2" (wire_of (on_close "c1" lobby)) = [user_left "c1" "Ann"]
  ∧ rooms (state_of (on_close "c1" lobby)) !! "lobby" = Some ["c2"].
Proof.
  destruct (disconnect_notifies_room lobby "c1" "c2" "lobby")
    as (Hrecv & Hroom & _); try (vm_compute; congruence).
  - apply (bool_decide_unpack _). vm_compute. exact I.
  - vm_compute. left.
  - vm_compute. right. left.
  - split; [exact Hrecv | exact Hroom].
Defined.

(** *** C9: disconnecting twice *)

Lemma disconnect_twice client_id s :
  disconnect client_id (disconnect client_id s) = disconnect client_id s.
Proof.
  unfold disconnect at 1. unfold rooms_without.
  rewrite profile_room_disconnect, decide_True by done.
  unfold disconnect. cbn [active_connections rooms user_info].
  f_equal; apply delete_delete_eq.
Qed.

(** C9.  The cleanup of a disconnect never raises; run a second time for
    the same id it returns again, changes nothing in the registry the first
    run left, and sends nothing, so the two runs in sequence are the one
    run, registry and wire alike. *)
Theorem disconnect_idempotent (s : ConnectionManager) (client_id : string) :
  let once := handle_client_disconnect client_id s in
  result_of once = Ret ()
  ∧ handle_client_disconnect client_id (state_of once) =
      (Ret (), state_of once, [])
  ∧ (handle_client_disconnect client_id ;;;
     handle_client_disconnect client_id) s = once
  ∧ disconnect client_id (disconnect client_id s) = disconnect client_id s.
Proof.
  intros once.
  assert (handle_client_disconnect client_id (disconnect client_id s) =
            (Ret (), disconnect client_id s, [])) as Hagain.
  { rewrite handle_client_disconnect_run, disconnect_twice.
    rewrite profile_room_disconnect, decide_True by done. done. }
  subst once. rewrite handle_client_disconnect_run.
  cbn [result_of state_of fst snd]. split_and!; [done|done| |].
  - unfold bind. rewrite handle_client_disconnect_run, Hagain.
    by rewrite app_nil_r.
  - apply disconnect_twice.
Qed.

(** *** C10: joining a room twice *)

(** C10.  A connection that is in the member list of [r] and joins [r]
    again is appended once more: it is listed one more time than before,
    so at least twice, and a broadcast to [r] that does not exclude it
    reaches it once per listing. *)
Theorem join_twice_duplicates (s : ConnectionManager) (c r : string)
  (data : inbound) (msg : message) (exclude_client : option string) :
  m_type data = Some "join" → m_room data = Some r →
  c ∈ room_members s r →
  let s' := state_of (on_message c data s) in
  room_members s' r = room_members s r ++ [c]
  ∧ occurrences c (room_members s' r) = S (occurrences c (room_members s r))
  ∧ (2 ≤ occurrences c (room_members s' r))%nat
  ∧ (deliverable s c = true → exclude_client ≠ Some c →
     received_by c (wire_of (broadcast_to_room msg r exclude_client s')) =
       replicate (occurrences c (room_members s' r)) msg).
Proof.
  intros Hjoin Hroom Hin s'.
  assert (room_members s' r = room_members s r ++ [c]) as Hmembers.
  { subst s'. rewrite on_message_state, decide_True by done.
    rewrite Hroom. cbn [default from_option id].
    by rewrite room_members_joined, decide_True. }
  assert (occurrences c (room_members s' r) =
            S (occurrences c (room_members s r))) as Hocc.
  { rewrite Hmembers, occurrences_app. unfold occurrences at 2.
    rewrite filter_cons_True by done. cbn. lia. }
  split_and!; [done|done| |].
  - apply occurrences_pos in Hin. lia.
  - intros Hup Hexcl. unfold broadcast_to_room. rewrite bind_get.
    rewrite (room_members_nonempty_lookup s' r _ Hmembers)
      by (by destruct (room_members s r)).
    rewrite (send_loop_run (λ c, Some c ≠ exclude_client)).
    cbn [wire_of snd]. rewrite <- Hmembers.
    rewrite received_by_deliveries.
    + by rewrite (occurrences_filter_keep (λ c, Some c ≠ exclude_client))
        by congruence.
    + subst s'. rewrite on_message_state, decide_True by done.
      by rewrite deliverable_joined.
Qed.

(** Ann, already in the lobby with Bob, joins the lobby again. *)
Lemma join_twice_duplicates_witness :
  room_members (state_of (on_message "c1" (join_msg "lobby" "Ann") lobby))
               "lobby" = ["c1"; "c2"; "c1"]
  ∧ received_by "c1"
      (wire_of (broadcast_to_room pong "lobby" (Some "c2")
                  (state_of (on_message "c1" (join_msg "lobby" "Ann") lobby))))
    = [pong; pong].
Proof.
  destruct (join_twice_duplicates lobby "c1" "lobby"
              (join_msg "lobby" "Ann") pong (Some "c2"))
    as (Hmembers & Hocc & _ & Hrecv); [reflexivity|reflexivity| |].
  - vm_compute. left.
  - split; [exact Hmembers|].
    rewrite Hrecv; [|reflexivity|congruence].
    rewrite Hocc. reflexivity.
Defined.

(** *** C7: messages that lack a field *)

(** C7, counterexample.  A [join] without [room] is not dropped: the
    sender is put in the room ["default"] and is sent [joined]. *)
Lemma join_without_room_is_not_dropped :
  ¬ (∀ s client_id data,
       lacks_required_field data →
       on_message client_id data s = (Ret (), s, [])).
Proof.
  intros Hclaim.
  specialize (Hclaim hallway "c1" (typed "join")).
  assert (wire_of (on_message "c1" (typed "join") hallway) =
            [("c1", joined "default" "c1" "Anonymous" [])]) as Hwire
    by (vm_compute; reflexivity).
  rewrite Hclaim in Hwire; [discriminate Hwire|].
  left. split; reflexivity.
Qed.

Lemma relay_without_field wrap client_id target payload s :
  target = None ∨ payload = None →
  relay wrap client_id target payload s = (Ret (), s, []).
Proof.
  unfold relay. intros [-> | ->]; [done|]. by destruct target.
Qed.

(** C7, amended.  An [offer], [answer], [ice_candidate] or [chat] message
    that lacks one of its required fields is dropped: the handler returns,
    the registry is unchanged (the sender stays registered) and nothing is
    sent.  A [join] without [room] is handled as a join of the room
    ["default"]. *)
Theorem missing_field_policy (s : ConnectionManager) (client_id : string)
  (data : inbound) :
  (lacks_relayed_field data →
   on_message client_id data s = (Ret (), s, []))
  ∧ (m_type data = Some "join" → m_room data = None →
     on_message client_id data s =
       on_message client_id (with_room "default" data) s).
Proof.
  split.
  - intros Hlacks. rewrite on_message_run. unfold handle_websocket_message.
    destruct Hlacks as [[Hty H]|[[Hty H]|[[Hty H]|[Hty H]]]]; rewrite Hty;
      repeat (case_decide; [congruence|]); rewrite decide_True by done.
    + by apply relay_without_field.
    + by apply relay_without_field.
    + by apply relay_without_field.
    + unfold handle_chat. destruct H as [-> | ->]; [done|].
      by destruct (m_room data).
  - intros Hty Hroom. rewrite !on_message_join by done.
    unfold handle_join. cbn [with_room m_room m_username]. by rewrite Hroom.
Qed.

(** An [offer] without target and payload, and a [join] without room. *)
Lemma missing_field_policy_witness :
  on_message "c1" (typed "offer") lobby = (Ret (), lobby, [])
  ∧ on_message "c1" (typed "join") hallway =
      on_message "c1" (with_room "default" (typed "join")) hallway.
Proof.
  split.
  - destruct (missing_field_policy lobby "c1" (typed "offer")) as [Hdrop _].
    apply Hdrop. left. split; [reflexivity | left; reflexivity].
  - destruct (missing_field_policy hallway "c1" (typed "join")) as [_ Hjoin].
    apply Hjoin; reflexivity.
Defined.

(** *** C3: rooms without members *)

Lemma no_empty_room_step s o :
  no_empty_room s → no_empty_room (state_of (perform o s)).
Proof.
  intros Hinv. rewrite perform_state.
  destruct o as [ws c0|c0 data|c0].
  - exact Hinv.
  - rewrite on_message_state. case_decide; [|exact Hinv].
    intros r members. unfold joined_state. cbn [rooms].
    rewrite rooms_after_append.
    destruct (decide (r = default "default" (m_room data))) as [->|Hr].
    + rewrite lookup_insert_eq. intros [= <-].
      by destruct (default [] _).
    + rewrite lookup_insert_ne by done. apply Hinv.
  - intros r members. unfold disconnect. cbn [rooms]. unfold rooms_without.
    destruct (profile_room s c0) as [r0|]; [|apply Hinv].
    destruct (truthy_str (Some r0)); [|apply Hinv].
    destruct (rooms s !! r0) as [members0|] eqn:Hroom; [|apply Hinv].
    case_decide; [|apply Hinv]. case_decide as Hempty.
    + destruct (decide (r = r0)) as [->|Hr].
      * by rewrite lookup_delete_eq.
      * rewrite lookup_delete_ne by done. apply Hinv.
    + destruct (decide (r = r0)) as [->|Hr].
      * rewrite lookup_insert_eq. by intros [= <-].
      * rewrite lookup_insert_ne by done. apply Hinv.
Qed.

Lemma reachable_no_empty_room s : reachable s → no_empty_room s.
Proof.
  induction 1 as [|s o _ IH]; [|by apply no_empty_room_step].
  intros r members. cbn. by rewrite lookup_empty.
Qed.

(** The last member of a room disconnects: the room leaves the table. *)
Lemma disconnect_last_member s client_id r :
  profile_room s client_id = Some r → r ≠ "" →
  rooms s !! r = Some [client_id] →
  rooms (disconnect client_id s) !! r = None.
Proof.
  intros Hprof Hr Hroom. unfold disconnect. cbn [rooms].
  unfold rooms_without. rewrite Hprof, (proj2 (truthy_str_Some r) Hr), Hroom.
  rewrite decide_True by left. cbn [list_remove].
  destruct (decide (client_id = client_id)); [|done].
  rewrite decide_True by done. apply lookup_delete_eq.
Qed.

(** A join of a room that is not in the table: the room is created with the
    newcomer as only member, and the snapshot sent in [joined] is empty. *)
Lemma join_fresh_room s client_id data r :
  m_type data = Some "join" → m_room data = Some r →
  rooms s !! r = None →
  let after := on_message client_id data s in
  let name := default "Anonymous" (m_username data) in
  rooms (state_of after) !! r = Some [client_id]
  ∧ wire_of after =
      send_if_up s client_id (joined r client_id name []).
Proof.
  intros Hty Hroom Habsent after name. subst after.
  rewrite on_message_join by done. rewrite handle_join_run.
  rewrite Hroom. cbn [default from_option id state_of wire_of fst snd].
  fold name. set (s' := joined_state client_id r name s).
  assert (room_members s' r = [client_id]) as Hmembers.
  { subst s'. rewrite room_members_joined, decide_True by done.
    unfold room_members. by rewrite Habsent. }
  split.
  - apply room_members_nonempty_lookup; [done|]. congruence.
  - rewrite other_users_members, Hmembers.
    rewrite filter_cons_False by naive_solver. rewrite filter_nil.
    cbn [fmap list_fmap concat]. by rewrite app_nil_r.
Qed.

(** C2 on the end-to-end scenario: Ann, then Bob, join room [r1]. *)
Lemma join_snapshot_exact_witness :
  wire_of (on_message "c2" (join_msg "r1" "Bob")
             (state_of (on_message "c1" (join_msg "r1" "Ann") pair)))
  = [("c2", joined "r1" "c2" "Bob"
              [{| p_client_id := "c1"; p_username := "Ann";
                  p_room_id := "r1" |}]);
     ("c1", user_joined "c2" "Bob" true);
     ("c2", user_joined "c1" "Ann" false)].
Proof.
  apply (join_snapshot_exact pair "c1" "c2" "r1"
           (join_msg "r1" "Ann") (join_msg "r1" "Bob"));
    [congruence | reflexivity..].
Defined.

(** C5 for an id that never connected and for a channel that refuses the
    send. *)
Lemma send_to_client_failure_contained_witness :
  send_to_client pong "ghost" hallway = (Ret false, hallway, [])
  ∧ send_to_client pong "c2" hallway = (Ret false, hallway, []).
Proof.
  split.
  - apply send_to_client_failure_contained. left. reflexivity.
  - apply send_to_client_failure_contained. right.
    exists (dead_socket 2). split; reflexivity.
Defined.

End VideoServerFacts.

(** ** The minimal server, [src/main.py], and the two servers side by side *)

Module MainFacts.
Import VideoServerFacts.

Lemma broadcast_to_room_run msg room exclude_client s :
  Main.channels_up s (default [] (Main.rooms s !! room)) →
  Main.broadcast_to_room msg room exclude_client s =
    (Ret (), s,
     (λ u, (u, msg))
       <$> filter (λ u, Some u ≠ exclude_client ∧ Main.live s u)
                  (default [] (Main.rooms s !! room))).
Proof.
  intros Hup. unfold Main.broadcast_to_room, bind at 1, get.
  destruct (Main.rooms s !! room) as [members|]; [|done].
  cbn [default from_option id] in *.
  rewrite (for_each_run members _
    (λ u, if decide (Some u ≠ exclude_client ∧ Main.live s u)
          then [(u, msg)] else [])).
  - by rewrite (concat_guarded (λ u, Some u ≠ exclude_client ∧ Main.live s u)
                               (λ u, (u, msg))).
  - intros u Hu.
    destruct (decide (Some u ≠ exclude_client ∧ Main.live s u))
      as [[Hexcl [ws Hws]]|Hno].
    + rewrite decide_True by done. rewrite Hws.
      unfold Main.send_json. by rewrite (Hup u ws Hu Hws).
    + destruct (decide (Some u ≠ exclude_client)) as [Hexcl|Hexcl]; [|done].
      destruct (Main.active_connections s !! u) as [ws|] eqn:Hws; [|done].
      destruct Hno. split; [done|]. unfold Main.live. rewrite Hws. eauto.
Qed.

Lemma keeps_state_send_json ws client_id msg :
  keeps_state (Main.send_json ws client_id msg).
Proof. intros s. unfold Main.send_json. by destruct (ws_connected ws). Qed.

Lemma keeps_state_broadcast msg room exclude_client :
  keeps_state (Main.broadcast_to_room msg room exclude_client).
Proof.
  intros s. unfold Main.broadcast_to_room, bind at 1, get.
  destruct (Main.rooms s !! room) as [members|]; [|done].
  assert (keeps_state (for_each members (λ client_id,
    if decide (Some client_id ≠ exclude_client) then
      match Main.active_connections s !! client_id with
      | Some ws => Main.send_json ws client_id msg
      | None => ret ()
      end
    else ret ()))) as Hloop.
  { apply keeps_state_for_each. intros u. case_decide; [|done].
    destruct (Main.active_connections s !! u);
      [apply keeps_state_send_json | done]. }
  specialize (Hloop s). unfold state_of in *.
  by destruct (for_each members _ s) as [[res s'] out].
Qed.

Lemma on_message_leave client_id data s :
  m_type data = Some "leave" →
  Main.on_message client_id data s = Main.on_leave client_id data s.
Proof.
  intros Hty. unfold Main.on_message. rewrite Hty.
  repeat case_decide; congruence.
Qed.

(** C8, counterexample.  [video_server.py] dispatches no [leave]: the
    message of a member of the lobby changes nothing and notifies nobody.
    [main.py] has the branch, and it reads the room from the message: a
    [leave] that names no room is ignored too. *)
Lemma leave_is_ignored :
  "c1" ∈ VideoServer.room_members VideoServer.lobby "lobby"
  ∧ VideoServer.on_message "c1" (leave_msg "lobby") VideoServer.lobby
    = (Ret (), VideoServer.lobby, [])
  ∧ Main.rooms Main.main_lobby !! "lobby" = Some ["c1"; "c2"]
  ∧ Main.on_message "c1" (typed "leave") Main.main_lobby
    = (Ret (), Main.main_lobby, []).
Proof.
  split_and!.
  - vm_compute. left.
  - vm_compute. reflexivity.
  - vm_compute. reflexivity.
  - vm_compute. reflexivity.
Qed.

(** A [leave] that names a room listing the sender: the sender is taken out,
    then the room is told. *)
Lemma on_leave_run s c r data members :
  m_type data = Some "leave" → m_room data = Some r →
  Main.rooms s !! r = Some members → c ∈ members →
  Main.on_message c data s =
    Main.broadcast_to_room (Main.user_left c) r None
      (Main.left_state c r members s).
Proof.
  intros Hty Hroom Hmembers Hin.
  rewrite on_message_leave by done. unfold Main.on_leave.
  rewrite bind_get, Hroom, Hmembers.
  rewrite decide_True by done. by rewrite bind_modify.
Qed.

Lemma on_leave_state s c r data members :
  m_type data = Some "leave" → m_room data = Some r →
  Main.rooms s !! r = Some members → c ∈ members →
  state_of (Main.on_message c data s) = Main.left_state c r members s.
Proof.
  intros Hty Hroom Hmembers Hin.
  rewrite (on_leave_run s c r data members) by done.
  apply keeps_state_broadcast.
Qed.

(** The [leave] branch taken alone, without the [except] clause of the
    endpoint: a [leave] whose [room] field names [r], from a connection
    listed in [r], takes the first occurrence of the connection out of the
    member list of [r]; a connection listed once is no longer in the list.
    When no channel of a remaining member refuses the send, the branch
    returns and [user_left] for the connection goes to the remaining
    members that are registered, in list order. *)
Theorem leave_removes_and_notifies (s : Main.ConnectionManager)
  (c r : string) (data : inbound) (members : list string) :
  m_type data = Some "leave" → m_room data = Some r →
  Main.rooms s !! r = Some members → c ∈ members →
  let after := Main.on_message c data s in
  let remaining := list_remove c members in
  state_of after = Main.left_state c r members s
  ∧ Main.rooms (state_of after) !! r = Some remaining
  ∧ Main.active_connections (state_of after) = Main.active_connections s
  ∧ (NoDup members → c ∉ remaining)
  ∧ (Main.channels_up s remaining →
     after =
       (Ret (), Main.left_state c r members s,
        (λ u, (u, Main.user_left c))
          <$> filter (λ u, Main.live s u) remaining)).
Proof.
  intros Hty Hroom Hmembers Hin after remaining.
  pose proof (on_leave_run s c r data members Hty Hroom Hmembers Hin) as Hrun.
  assert (Main.rooms (Main.left_state c r members s) !! r = Some remaining)
    as Hlookup by apply lookup_insert_eq.
  assert (Main.channels_up s remaining →
          after = (Ret (), Main.left_state c r members s,
                   (λ u, (u, Main.user_left c))
                     <$> filter (λ u, Main.live s u) remaining)) as Hsend.
  { intros Hup. subst after. rewrite Hrun.
    rewrite broadcast_to_room_run; rewrite Hlookup; [|exact Hup].
    cbn [default from_option id]. do 2 f_equal.
    apply list_filter_iff. intros u. unfold Main.live. cbn. naive_solver. }
  assert (state_of after = Main.left_state c r members s) as Hstate
    by (by apply on_leave_state).
  rewrite Hstate. split_and!; try done.
  intros Hnodup. by apply list_remove_NoDup_gone.
Qed.

(** Ann leaves the lobby of the minimal server; Bob is told. *)
Lemma leave_removes_and_notifies_witness :
  Main.on_message "c1" (leave_msg "lobby") Main.main_lobby =
    (Ret (),
     {| Main.active_connections := Main.active_connections Main.main_lobby;
        Main.rooms := {[ "lobby" := ["c2"] ]} |},
     [("c2", Main.user_left "c1")]).
Proof.
  destruct (leave_removes_and_notifies Main.main_lobby "c1" "lobby"
              (leave_msg "lobby") ["c1"; "c2"])
    as (_ & _ & _ & _ & Hrun); [reflexivity|reflexivity|reflexivity| |].
  - vm_compute. left.
  - rewrite Hrun; [vm_compute; reflexivity|].
    intros u ws Hu Hws. vm_compute in Hu.
    apply list_elem_of_singleton in Hu. subst u.
    vm_compute in Hws. by injection Hws as <-.
Defined.

(** *** C3: what becomes of a room without members *)

(** C3, counterexample.  The only member of the lobby leaves: [main.py]
    keeps the room in the table, with an empty member list. *)
Lemma leave_keeps_emptied_room : ¬ Main.leave_deletes_empty_room.
Proof.
  intros Hclaim.
  specialize (Hclaim Main.main_alone "c1" "lobby" (leave_msg "lobby")).
  assert (Main.rooms
            (state_of (Main.on_message "c1" (leave_msg "lobby") Main.main_alone))
            !! "lobby" = Some []) as Hkept by (vm_compute; reflexivity).
  rewrite Hclaim in Hkept; [discriminate Hkept|reflexivity..].
Qed.

(** The disconnect of [main.py] does not delete the emptied room either. *)
Example main_disconnect_keeps_emptied_room :
  Main.rooms (state_of (Main.on_close "c1" Main.main_alone)) !! "lobby" = Some [].
Proof. vm_compute. reflexivity. Qed.

Lemma on_join_empty_room s d r data :
  m_type data = Some "join" → m_room data = Some r →
  Main.rooms s !! r = Some [] →
  let after := Main.on_message d data s in
  Main.rooms (state_of after) !! r = Some [d]
  ∧ wire_of after =
      match Main.active_connections s !! d with
      | Some ws => if ws_connected ws then [(d, Main.room_info r [])] else []
      | None => []
      end.
Proof.
  intros Hty Hroom Hempty after. subst after.
  unfold Main.on_message. rewrite decide_True by done.
  unfold Main.on_join. rewrite Hroom. unfold Main.item.
  rewrite bind_ret, bind_modify.
  rewrite rooms_after_append, Hempty. cbn [default from_option id app].
  set (s' := {| Main.active_connections := Main.active_connections s;
                Main.rooms := <[r := [d]]> (Main.rooms s) |}).
  assert (Main.rooms s' !! r = Some [d]) as Hlookup by apply lookup_insert_eq.
  assert (Main.broadcast_to_room
            (Main.user_joined d (default "Anonymous" (m_username data)))
            r (Some d) s' = (Ret (), s', [])) as Hquiet.
  { unfold Main.broadcast_to_room. rewrite bind_get, Hlookup.
    cbn [for_each]. rewrite decide_False by naive_solver.
    by rewrite bind_ret. }
  rewrite (bind_quiet_step _ _ _ _ Hquiet), bind_get.
  rewrite Hlookup. cbn [default from_option id].
  rewrite filter_cons_False by naive_solver. rewrite filter_nil.
  cbn [fmap list_fmap]. unfold Main.send_to_client. rewrite bind_get.
  cbn [Main.active_connections s'].
  destruct (Main.active_connections s !! d) as [ws|]; [|done].
  unfold Main.send_json. by destruct (ws_connected ws).
Qed.

(** C3, amended.  In [video_server.py] no reachable registry holds a room
    without members.  When the connection that disconnects is the only
    member of the room its profile names, the room id leaves the room
    table, and the next join of that id creates the room with the newcomer
    as only member and answers [joined] with an empty participants list.
    ([video_server.py] has no [leave] branch.)  In [main.py] a [leave] that
    takes the only member out keeps the room in the table with an empty
    member list; the next join of that id finds no other member and its
    [room_info] lists no participant. *)
Theorem empty_room_deletion :
  (∀ s, VideoServer.reachable s → VideoServer.no_empty_room s)
  ∧ (∀ s c r,
       VideoServer.profile_room s c = Some r → r ≠ "" →
       VideoServer.rooms s !! r = Some [c] →
       let s' := state_of (VideoServer.on_close c s) in
       VideoServer.rooms s' !! r = None
       ∧ ∀ d data,
           m_type data = Some "join" → m_room data = Some r →
           let after := VideoServer.on_message d data s' in
           VideoServer.rooms (state_of after) !! r = Some [d]
           ∧ wire_of after =
               VideoServer.send_if_up s' d
                 (VideoServer.joined r d
                    (default "Anonymous" (m_username data)) []))
  ∧ (∀ s c r data,
       m_type data = Some "leave" → m_room data = Some r →
       Main.rooms s !! r = Some [c] →
       let s' := state_of (Main.on_message c data s) in
       Main.rooms s' !! r = Some []
       ∧ ∀ d data',
           m_type data' = Some "join" → m_room data' = Some r →
           let after := Main.on_message d data' s' in
           Main.rooms (state_of after) !! r = Some [d]
           ∧ wire_of after =
               match Main.active_connections s' !! d with
               | Some ws =>
                   if ws_connected ws then [(d, Main.room_info r [])] else []
               | None => []
               end).
Proof.
  split_and!.
  - apply reachable_no_empty_room.
  - intros s c r Hprof Hr Hroom s'.
    assert (VideoServer.rooms s' !! r = None) as Habsent.
    { subst s'. unfold VideoServer.on_close.
      rewrite handle_client_disconnect_run.
      by apply disconnect_last_member. }
    split; [done|]. intros d data Hty Hdata.
    by apply join_fresh_room.
  - intros s c r data Hty Hroom Hmembers s'.
    assert (Main.rooms s' !! r = Some []) as Hlookup.
    { subst s'. rewrite (on_leave_state s c r data [c]); [|done..|left].
      unfold Main.left_state. cbn [Main.rooms list_remove].
      rewrite decide_True by done. apply lookup_insert_eq. }
    split; [exact Hlookup|]. intros d data' Hty' Hroom'.
    by apply on_join_empty_room.
Qed.

(** Ann, alone in the lobby, disconnects from the rich server, and leaves
    on the minimal one. *)
Lemma empty_room_deletion_witness :
  VideoServer.no_empty_room VideoServer.lobby
  ∧ VideoServer.rooms
      (state_of (VideoServer.on_close "c1" VideoServer.alone)) !! "lobby" = None
  ∧ Main.rooms
      (state_of (Main.on_message "c1" (leave_msg "lobby") Main.main_alone))
      !! "lobby" = Some [].
Proof.
  destruct empty_room_deletion as (Hinv & Hclose & Hleave).
  split_and!.
  - apply Hinv, reachable_joining_once_reachable, lobby_joining_once.
  - apply (Hclose VideoServer.alone "c1" "lobby"); [reflexivity|congruence|reflexivity].
  - apply (Hleave Main.main_alone "c1" "lobby" (leave_msg "lobby"));
      reflexivity.
Defined.

(** *** The delivery primitives of [main.py] *)

(** [main.py] has no [try] around [send_json]: a refused send raises out of
    [send_to_client], and out of [broadcast_to_room] before the members
    after the failing one are served. *)
Example main_send_failure_raises :
  Main.send_to_client (Main.user_left "c1") "c2" Main.main_patchy
  = (Raise ChannelError, Main.main_patchy, [])
  ∧ Main.broadcast_to_room (Main.user_left "c1") "lobby" (Some "c1")
      Main.main_patchy
    = (Raise ChannelError, Main.main_patchy, []).
Proof. split; vm_compute; reflexivity. Qed.

(** A [join] without [room] raises [KeyError] in [main.py]. *)
Example main_join_without_room_raises :
  Main.on_message "c1" (typed "join") Main.main_patchy
  = (Raise (KeyError "room"), Main.main_patchy, []).
Proof. vm_compute. reflexivity. Qed.

(** The join of [main.py] answers [room_info], and announces the newcomer
    without a [should_initiate] flag. *)
Example main_join_messages :
  wire_of (Main.on_message "c2" (join_msg "lobby" "Bob") Main.main_alone_pair)
  = [("c1", Main.user_joined "c2" "Bob");
     ("c2", Main.room_info "lobby"
              [{| Main.p_id := "c1"; Main.p_username := "User" |}])].
Proof. vm_compute. reflexivity. Qed.

(** The disconnect of [main.py] notifies nobody. *)
Example main_disconnect_is_silent :
  wire_of (Main.on_close "c1" Main.main_lobby) = [].
Proof. reflexivity. Qed.

(** The disconnect of [main.py] takes one occurrence out of every room: run
    twice on a registry where the id is listed twice, it removes both. *)
Example main_disconnect_twice :
  let s := {| Main.active_connections := ∅;
              Main.rooms := {[ "lobby" := ["c1"; "c1"] ]} |} in
  Main.rooms (Main.disconnect "c1" s) !! "lobby" = Some ["c1"]
  ∧ Main.rooms (Main.disconnect "c1" (Main.disconnect "c1" s)) !! "lobby"
    = Some [].
Proof. split; vm_compute; reflexivity. Qed.

End MainFacts.

(** ** More on [src/video_server.py]: the relays, chat, keep-alive, the
    dispatch and the introspection endpoints *)

Module VideoServerExtra.
Import VideoServer VideoServerFacts.

(** *** Relayed messages *)

Lemma relay_run wrap client_id target body s :
  target ≠ "" → truthy body = true →
  relay wrap client_id (Some target) (Some body) s =
    (Ret (), s, send_if_up s target (wrap client_id body)).
Proof.
  intros Htarget Hbody. unfold relay.
  rewrite (proj2 (truthy_str_Some target) Htarget). cbn [truthy_json].
  rewrite Hbody. cbn [andb]. apply send_then_ret_run.
Qed.

Lemma relay_falsy wrap client_id target payload s :
  truthy_str target = false ∨ truthy_json payload = false →
  relay wrap client_id target payload s = (Ret (), s, []).
Proof.
  intros Hfalsy. unfold relay.
  destruct target as [t|], payload as [b|]; try done.
  destruct Hfalsy as [-> | ->]; [done|]. by rewrite andb_false_r.
Qed.

Lemma on_message_dispatch client_id data s :
  on_message client_id data s =
    handle_websocket_message client_id data s.
Proof. apply on_message_run. Qed.

(** X1.  An [offer], [answer] or [ice_candidate] with a non-empty target and
    a payload that is not false in Python's sense is relayed to the target
    alone: the one message on the wire carries the sender's id and the
    payload as received, it is there iff the target is registered with a
    working channel, the handler returns, and the registry is unchanged.
    Neither the sender nor the target has to be in a room. *)
Theorem relay_reaches_target_only (s : ConnectionManager)
  (client_id target : string) (body : json) (data : inbound) :
  m_target data = Some target → target ≠ "" → truthy body = true →
  (m_type data = Some "offer" → m_offer data = Some body →
   on_message client_id data s =
     (Ret (), s, send_if_up s target (offer client_id body)))
  ∧ (m_type data = Some "answer" → m_answer data = Some body →
     on_message client_id data s =
       (Ret (), s, send_if_up s target (answer client_id body)))
  ∧ (m_type data = Some "ice_candidate" → m_candidate data = Some body →
     on_message client_id data s =
       (Ret (), s, send_if_up s target (ice_candidate client_id body))).
Proof.
  intros Htarget Hne Hbody. split_and!; intros Hty Hpayload;
    rewrite on_message_dispatch; unfold handle_websocket_message;
    rewrite Hty; repeat (case_decide; [congruence|]);
    rewrite decide_True by done.
  - unfold handle_offer. rewrite Htarget, Hpayload. by apply relay_run.
  - unfold handle_answer. rewrite Htarget, Hpayload. by apply relay_run.
  - unfold handle_ice_candidate. rewrite Htarget, Hpayload.
    by apply relay_run.
Qed.

(** Ann sends Cleo an offer, an answer and a candidate; an offer to Bob,
    whose channel refuses sends, goes nowhere. *)
Lemma relay_reaches_target_only_witness :
  on_message "c1" (offer_msg "c3" sdp) patchy_lobby
  = (Ret (), patchy_lobby, [("c3", offer "c1" sdp)])
  ∧ on_message "c1" (answer_msg "c3" sdp) patchy_lobby
    = (Ret (), patchy_lobby, [("c3", answer "c1" sdp)])
  ∧ on_message "c1" (ice_msg "c3" sdp) patchy_lobby
    = (Ret (), patchy_lobby, [("c3", ice_candidate "c1" sdp)])
  ∧ on_message "c1" (offer_msg "c2" sdp) patchy_lobby
    = (Ret (), patchy_lobby, []).
Proof.
  split_and!.
  - apply (relay_reaches_target_only patchy_lobby "c1" "c3" sdp
             (offer_msg "c3" sdp)); (reflexivity || congruence).
  - apply (proj1 (proj2 (relay_reaches_target_only patchy_lobby "c1" "c3" sdp
             (answer_msg "c3" sdp) eq_refl ltac:(congruence) eq_refl)));
      reflexivity.
  - apply (proj2 (proj2 (relay_reaches_target_only patchy_lobby "c1" "c3" sdp
             (ice_msg "c3" sdp) eq_refl ltac:(congruence) eq_refl)));
      reflexivity.
  - apply (proj1 (relay_reaches_target_only patchy_lobby "c1" "c2" sdp
             (offer_msg "c2" sdp) eq_refl ltac:(congruence) eq_refl));
      reflexivity.
Defined.

(** X2.  The handlers test their fields for truth, not for presence: an
    [offer], [answer] or [ice_candidate] whose target is absent or the empty
    string, or whose payload is absent, [null], [false], [0], an empty
    string, an empty list or an empty object, and a [chat] whose room or
    text is absent or empty, is dropped: the handler returns, the registry
    is unchanged and nothing is sent. *)
Theorem falsy_field_is_dropped (s : ConnectionManager) (client_id : string)
  (data : inbound) :
  fails_field_test data →
  on_message client_id data s = (Ret (), s, []).
Proof.
  intros Hfails. rewrite on_message_dispatch.
  unfold handle_websocket_message.
  destruct Hfails as [[Hty H]|[[Hty H]|[[Hty H]|[Hty H]]]]; rewrite Hty;
    repeat (case_decide; [congruence|]); rewrite decide_True by done.
  - by apply relay_falsy.
  - by apply relay_falsy.
  - by apply relay_falsy.
  - unfold handle_chat.
    destruct (m_room data) as [room|], (m_message data) as [text|]; try done.
    destruct H as [-> | ->]; [done|]. by rewrite andb_false_r.
Qed.

(** An offer whose payload is the empty object. *)
Lemma falsy_field_is_dropped_witness :
  on_message "c1" (offer_msg "c3" (JObj [])) patchy_lobby
  = (Ret (), patchy_lobby, [])
  ∧ on_message "c1" (chat_msg "lobby" "") patchy_lobby
    = (Ret (), patchy_lobby, []).
Proof.
  split.
  - apply falsy_field_is_dropped. left. split; [reflexivity|].
    right. reflexivity.
  - apply falsy_field_is_dropped. do 3 right. split; [reflexivity|].
    right. reflexivity.
Defined.

(** *** Chat, keep-alive and the dispatch *)

Lemma received_by_deliveries_absent s msg (targets : list string) client_id :
  client_id ∉ targets → received_by client_id (deliveries s msg targets) = [].
Proof.
  intros Habsent. unfold received_by, deliveries.
  induction targets as [|u targets IH]; [done|].
  apply not_elem_of_cons in Habsent as [Hne Habsent].
  rewrite filter_cons. case_decide; [|by apply IH].
  cbn [fmap list_fmap]. rewrite filter_cons_False by (cbn; congruence).
  by apply IH.
Qed.

(** X3.  A [chat] with a non-empty room and text goes, in member-list order,
    to the members of the named room other than the sender whose send
    succeeds, labelled with the sender's stored name (or ["Unknown"] when it
    has no profile); the sender gets no copy, the registry is unchanged and
    the handler returns.  The room is the one the message names: the sender
    need not be a member of it. *)
Theorem chat_reaches_the_others (s : ConnectionManager)
  (client_id room text : string) (data : inbound) :
  m_type data = Some "chat" →
  m_room data = Some room → room ≠ "" →
  m_message data = Some text → text ≠ "" →
  let msg := chat (profile_name s client_id) text in
  let after := on_message client_id data s in
  after =
    (Ret (), s,
     deliveries s msg (filter (λ u, u ≠ client_id) (room_members s room)))
  ∧ received_by client_id (wire_of after) = []
  ∧ (∀ u, u ≠ client_id → deliverable s u = true →
       received_by u (wire_of after) =
         replicate (occurrences u (room_members s room)) msg).
Proof.
  intros Hty Hroom Hr Htext Ht msg after.
  assert (after =
            (Ret (), s,
             deliveries s msg
               (filter (λ u, u ≠ client_id) (room_members s room)))) as Hrun.
  { subst after. rewrite on_message_dispatch.
    unfold handle_websocket_message. rewrite Hty.
    repeat (case_decide; [congruence|]). rewrite decide_True by done.
    unfold handle_chat. rewrite Hroom, Htext.
    rewrite (proj2 (truthy_str_Some room) Hr).
    rewrite (proj2 (truthy_str_Some text) Ht). cbn [andb].
    rewrite bind_get. unfold room_members.
    destruct (rooms s !! room) as [members|]; [|done].
    cbn [default from_option id].
    by rewrite (send_loop_run (λ u, u ≠ client_id)). }
  rewrite Hrun. cbn [wire_of snd]. split_and!; [done| |].
  - apply received_by_deliveries_absent.
    intros [Hself _]%list_elem_of_filter. done.
  - intros u Hu Hup. rewrite received_by_deliveries by done.
    by rewrite (occurrences_filter_keep (λ u, u ≠ client_id)).
Qed.

(** Ann writes to the lobby: Cleo reads it, Bob's channel refuses it. *)
Lemma chat_reaches_the_others_witness :
  on_message "c1" (chat_msg "lobby" "hello") patchy_lobby
  = (Ret (), patchy_lobby, [("c3", chat "Ann" "hello")]).
Proof.
  apply (chat_reaches_the_others patchy_lobby "c1" "lobby" "hello"
           (chat_msg "lobby" "hello")); (reflexivity || congruence).
Defined.

(** X4.  A [ping] is answered with [pong] to the sender alone, when the
    sender is registered and its channel accepts the send; otherwise nothing
    is sent.  Either way the handler returns and the registry is unchanged. *)
Theorem ping_answers_sender_only (s : ConnectionManager)
  (client_id : string) (data : inbound) :
  m_type data = Some "ping" →
  on_message client_id data s = (Ret (), s, send_if_up s client_id pong).
Proof.
  intros Hty. rewrite on_message_dispatch.
  unfold handle_websocket_message. rewrite Hty.
  repeat (case_decide; [congruence|]). rewrite decide_True by done.
  apply send_then_ret_run.
Qed.

Lemma ping_answers_sender_only_witness :
  on_message "c1" (typed "ping") patchy_lobby
  = (Ret (), patchy_lobby, [("c1", pong)])
  ∧ on_message "c2" (typed "ping") patchy_lobby
    = (Ret (), patchy_lobby, []).
Proof.
  split; apply ping_answers_sender_only; reflexivity.
Defined.

(** X5.  A message whose type is absent or has no branch in the dispatch
    ([leave] among them) falls through: the handler returns, the registry is
    unchanged and nothing is sent. *)
Theorem undispatched_type_is_dropped (s : ConnectionManager)
  (client_id : string) (data : inbound) :
  ¬ dispatched (m_type data) →
  on_message client_id data s = (Ret (), s, []).
Proof.
  intros Hnot. rewrite on_message_dispatch.
  unfold handle_websocket_message, dispatched in *.
  repeat (case_decide; [naive_solver|]). done.
Qed.

Lemma undispatched_type_is_dropped_witness :
  on_message "c1" (typed "mute") patchy_lobby = (Ret (), patchy_lobby, [])
  ∧ on_message "c1" (leave_msg "lobby") patchy_lobby
    = (Ret (), patchy_lobby, []).
Proof.
  split; apply undispatched_type_is_dropped;
    intros Hd; repeat destruct Hd as [Hd|Hd]; discriminate Hd.
Defined.

(** X6.  For every message of the schema, that is, a JSON object whose
    [room], [target], [username] and [message], when present, are strings:
    the handler returns (the [except] exit of the endpoint is not taken),
    the table of connections is as before, the
    profile of every other connection is as before, every member list keeps
    what it had as a prefix (a message removes nobody from a room), and only
    a [join] changes the registry at all. *)
Theorem message_never_unregisters (s : ConnectionManager)
  (client_id : string) (data : inbound) :
  let after := on_message client_id data s in
  result_of after = Ret ()
  ∧ active_connections (state_of after) = active_connections s
  ∧ (∀ u, u ≠ client_id →
       user_info (state_of after) !! u = user_info s !! u)
  ∧ (∀ r, room_members s r `prefix_of` room_members (state_of after) r)
  ∧ (m_type data ≠ Some "join" → state_of after = s).
Proof.
  intros after. subst after. split_and!.
  - rewrite on_message_dispatch.
    by destruct (handle_websocket_message_returns client_id data s)
      as (s' & out & ->).
  - rewrite on_message_state. by case_decide.
  - intros u Hu. rewrite on_message_state. case_decide; [|done].
    cbn [joined_state user_info]. by rewrite lookup_insert_ne.
  - intros r. rewrite on_message_state. case_decide; [|done].
    rewrite room_members_joined. case_decide; [|done].
    by apply prefix_app_r.
  - intros Hty. rewrite on_message_state. by rewrite decide_False.
Qed.

(** Ann's chat changes nothing in the registry. *)
Lemma message_never_unregisters_witness :
  state_of (on_message "c1" (chat_msg "lobby" "hello") patchy_lobby)
  = patchy_lobby
  ∧ user_info
      (state_of (on_message "c1" (join_msg "attic" "Ann") patchy_lobby))
      !! "c3"
    = user_info patchy_lobby !! "c3".
Proof.
  split.
  - apply (message_never_unregisters patchy_lobby "c1"
             (chat_msg "lobby" "hello")). discriminate.
  - apply (message_never_unregisters patchy_lobby "c1"
             (join_msg "attic" "Ann")). discriminate.
Defined.

(** *** Disconnects *)

Lemma on_close_state client_id s :
  state_of (on_close client_id s) = disconnect client_id s.
Proof. unfold on_close. by rewrite handle_client_disconnect_run. Qed.

Lemma rooms_without_other client_id s r :
  profile_room s client_id ≠ Some r →
  rooms_without client_id s !! r = rooms s !! r.
Proof.
  intros Hother. unfold rooms_without.
  destruct (profile_room s client_id) as [r0|]; [|done].
  destruct (truthy_str (Some r0)); [|done].
  destruct (rooms s !! r0) as [members|]; [|done].
  assert (r0 ≠ r) as Hne by congruence.
  repeat case_decide; try done.
  - by rewrite lookup_delete_ne.
  - by rewrite lookup_insert_ne.
Qed.

(** X7.  The cleanup of a disconnect touches the leaving connection only:
    every other id keeps its channel and its profile and is listed in every
    room as many times as before, and a room that the profile of the leaving
    connection does not name keeps its entry in the room table. *)
Theorem disconnect_spares_the_others (s : ConnectionManager)
  (client_id u : string) :
  u ≠ client_id →
  let s' := state_of (on_close client_id s) in
  active_connections s' !! u = active_connections s !! u
  ∧ user_info s' !! u = user_info s !! u
  ∧ (∀ r, occurrences u (room_members s' r)
          = occurrences u (room_members s r))
  ∧ (∀ r, profile_room s client_id ≠ Some r →
          rooms s' !! r = rooms s !! r).
Proof.
  intros Hu s'. subst s'. rewrite on_close_state. split_and!.
  - cbn. by rewrite lookup_delete_ne.
  - cbn. by rewrite lookup_delete_ne.
  - intros r. rewrite room_members_disconnect. case_decide; [|done].
    by apply occurrences_list_remove_ne.
  - intros r Hr. cbn [disconnect rooms]. by apply rooms_without_other.
Qed.

(** Ann leaves the lobby; Cleo keeps her channel and her place. *)
Lemma disconnect_spares_the_others_witness :
  active_connections (state_of (on_close "c1" patchy_lobby)) !! "c3"
  = Some (socket 3)
  ∧ room_members (state_of (on_close "c1" patchy_lobby)) "lobby"
    = ["c2"; "c3"].
Proof.
  destruct (disconnect_spares_the_others patchy_lobby "c1" "c3")
    as (Hchannel & _); [congruence|].
  split; [rewrite Hchannel|]; reflexivity.
Defined.

(** X8.  The room named by the empty string is never left.  [disconnect]
    guards the cleanup with [if room_id and ...], which fails for [""]: when
    the profile of the closing connection names [""], the room table is
    left as it is and nobody is notified, so the id stays in the member list
    of [""] while its channel and its profile are gone. *)
Theorem unnamed_room_is_never_left (s : ConnectionManager)
  (client_id : string) :
  reachable s → profile_room s client_id = Some "" →
  let after := on_close client_id s in
  rooms (state_of after) = rooms s
  ∧ client_id ∈ room_members (state_of after) ""
  ∧ user_info (state_of after) !! client_id = None
  ∧ active_connections (state_of after) !! client_id = None
  ∧ wire_of after = [].
Proof.
  intros Hreach Hprof after. subst after. unfold on_close.
  rewrite handle_client_disconnect_run. cbn [state_of wire_of fst snd].
  assert (rooms (disconnect client_id s) = rooms s) as Hrooms.
  { cbn [disconnect rooms]. unfold rooms_without. by rewrite Hprof. }
  split_and!.
  - exact Hrooms.
  - unfold room_members. rewrite Hrooms.
    by apply (reachable_profile_in_room s Hreach).
  - cbn. apply lookup_delete_eq.
  - cbn. apply lookup_delete_eq.
  - unfold departure_notices. by rewrite Hprof.
Qed.

Lemma unnamed_room_is_never_left_witness :
  let s := (run [Connect (socket 1) "c1"; Receive "c1" (join_msg "" "Ann")]
                manager0).1 in
  rooms (state_of (on_close "c1" s)) !! "" = Some ["c1"]
  ∧ user_info (state_of (on_close "c1" s)) !! "c1" = None.
Proof.
  intros s.
  destruct (unnamed_room_is_never_left s "c1") as (Hrooms & _ & Hinfo & _).
  - apply run_reachable, reachable_init.
  - reflexivity.
  - split; [rewrite Hrooms; reflexivity | exact Hinfo].
Defined.

(** X9.  A session leaves no trace.  In a registry without empty rooms, an
    id that is neither registered, nor profiled, nor listed in the room it
    is about to join connects, joins a room with a non-empty id and closes:
    the registry is the one the session started from. *)
Theorem session_leaves_no_trace (s : ConnectionManager) (ws : WebSocket)
  (client_id : string) (data : inbound) :
  no_empty_room s →
  active_connections s !! client_id = None →
  user_info s !! client_id = None →
  m_type data = Some "join" →
  default "default" (m_room data) ≠ "" →
  client_id ∉ room_members s (default "default" (m_room data)) →
  (run [Connect ws client_id; Receive client_id data; Close client_id] s).1
  = s.
Proof.
  intros Hfull Hconn Hinfo Hty Hroom Habsent.
  set (room := default "default" (m_room data)) in *.
  cbn [run fst]. rewrite !perform_state, on_message_state.
  rewrite decide_True by done. fold room.
  set (name := default "Anonymous" (m_username data)).
  destruct s as [conns rs infos]. cbn in Hconn, Hinfo.
  unfold disconnect, joined_state, connected_state.
  cbn [active_connections rooms user_info].
  f_equal.
  - rewrite delete_insert_eq. by apply delete_id.
  - unfold rooms_without, profile_room.
    cbn [active_connections rooms user_info].
    rewrite lookup_insert_eq. cbn [fmap option_fmap option_map room_id].
    rewrite (proj2 (truthy_str_Some room) Hroom).
    rewrite rooms_after_append, lookup_insert_eq.
    unfold room_members in Habsent. cbn [rooms] in Habsent.
    rewrite decide_True by (apply elem_of_app; right; left).
    assert (list_remove client_id (default [] (rs !! room) ++ [client_id])
            = default [] (rs !! room)) as ->.
    { clear -Habsent. induction (default [] (rs !! room)) as [|u l IH].
      - cbn. by rewrite decide_True.
      - apply not_elem_of_cons in Habsent as [Hne Habsent].
        cbn [app list_remove]. rewrite decide_False by done.
        by rewrite IH. }
    destruct (rs !! room) as [members|] eqn:Hlookup; cbn [default from_option id].
    + rewrite decide_False by (by apply (Hfull room)).
      rewrite insert_insert_eq. by apply insert_id.
    + rewrite decide_True by done. rewrite delete_insert_eq.
      by apply delete_id.
  - rewrite delete_insert_eq. by apply delete_id.
Qed.

(** Dan comes to the lobby and goes. *)
Lemma session_leaves_no_trace_witness :
  (run [Connect (socket 4) "c4"; Receive "c4" (join_msg "lobby" "Dan");
        Close "c4"] lobby).1 = lobby.
Proof.
  apply session_leaves_no_trace; try reflexivity.
  - apply reachable_no_empty_room, reachable_joining_once_reachable,
      lobby_joining_once.
  - cbn. congruence.
  - apply (bool_decide_unpack _). vm_compute. exact I.
Defined.

(** *** Joins, for any number of members *)

Lemma received_by_send_if_up s client_id target msg :
  received_by client_id (send_if_up s target msg) =
    if decide (target = client_id)
    then (if deliverable s target then [msg] else [])
    else [].
Proof.
  unfold send_if_up. destruct (deliverable s target).
  - rewrite received_by_cons. by case_decide.
  - by case_decide.
Qed.

Lemma introductions_to_newcomer s client_id name (l : list Participant) :
  (∀ p, p ∈ l → p_client_id p ≠ client_id) →
  deliverable s client_id = true →
  received_by client_id (concat (introductions s client_id name <$> l)) =
    (λ p, user_joined (p_client_id p) (p_username p) false) <$> l.
Proof.
  intros Hothers Hup. induction l as [|p l IH]; [done|].
  cbn [fmap list_fmap concat]. rewrite received_by_app.
  unfold introductions at 1. rewrite (received_by_app (Msg := message)).
  rewrite !received_by_send_if_up.
  rewrite decide_False by (apply Hothers; left).
  rewrite decide_True by done. rewrite Hup. cbn [app].
  f_equal. apply IH. intros q Hq. apply Hothers. by right.
Qed.

Lemma introductions_to_member s client_id name (l : list Participant) u :
  u ≠ client_id →
  received_by u (concat (introductions s client_id name <$> l)) =
    if deliverable s u
    then replicate (occurrences u (p_client_id <$> l))
                   (user_joined client_id name true)
    else [].
Proof.
  intros Hu. unfold occurrences. induction l as [|p l IH].
  { by destruct (deliverable s u). }
  cbn [fmap list_fmap concat]. rewrite received_by_app, IH.
  unfold introductions. rewrite (received_by_app (Msg := message)).
  rewrite !received_by_send_if_up.
  rewrite (decide_False (P := client_id = u)) by congruence.
  rewrite app_nil_r. rewrite filter_cons.
  destruct (decide (p_client_id p = u)) as [->|Hp].
  - by destruct (deliverable s u).
  - done.
Qed.

Lemma others_of_newcomer s client_id room name :
  client_id ∉ room_members s room →
  other_users (joined_state client_id room name s) client_id room =
    (λ u, {| p_client_id := u; p_username := profile_name s u;
             p_room_id := room |}) <$> room_members s room.
Proof.
  intros Habsent. rewrite other_users_members.
  rewrite room_members_joined, decide_True by done.
  rewrite filter_app, filter_cons_False by naive_solver.
  rewrite filter_nil, app_nil_r.
  rewrite filter_keeps_all by (intros u Hu ->; done).
  apply list_fmap_ext. intros i u Hu.
  rewrite profile_name_joined. rewrite decide_False; [done|].
  intros ->. apply Habsent. by apply list_elem_of_lookup_2 in Hu.
Qed.

(** X10.  A newcomer with a working channel joins a room whose members are
    listed once each.  The newcomer receives [joined] with the members of the
    room, in join order, under their stored names, followed by one
    [user_joined] with [should_initiate] false per member, in the same
    order.  Every member whose send succeeds receives exactly one
    [user_joined] for the newcomer, with [should_initiate] true; a member
    whose send fails receives nothing, and is still announced to the
    newcomer. *)
Theorem join_introduces_everyone (s : ConnectionManager)
  (client_id : string) (data : inbound) :
  m_type data = Some "join" →
  let room := default "default" (m_room data) in
  let name := default "Anonymous" (m_username data) in
  let members := room_members s room in
  client_id ∉ members → NoDup members → deliverable s client_id = true →
  let out := wire_of (on_message client_id data s) in
  received_by client_id out =
    joined room client_id name
           ((λ u, {| p_client_id := u; p_username := profile_name s u;
                     p_room_id := room |}) <$> members)
    :: ((λ u, user_joined u (profile_name s u) false) <$> members)
  ∧ (∀ u, u ∈ members →
       received_by u out =
         if deliverable s u then [user_joined client_id name true] else []).
Proof.
  intros Hty room name members Habsent Hnodup Hup out.
  assert (out =
    send_if_up s client_id
      (joined room client_id name
         ((λ u, {| p_client_id := u; p_username := profile_name s u;
                   p_room_id := room |}) <$> members))
    ++ concat (introductions (joined_state client_id room name s)
                             client_id name
               <$> ((λ u, {| p_client_id := u;
                             p_username := profile_name s u;
                             p_room_id := room |}) <$> members))) as ->.
  { subst out. rewrite on_message_join by done. rewrite handle_join_run.
    cbn [wire_of snd]. fold room name.
    by rewrite (others_of_newcomer s client_id room name Habsent). }
  split.
  - rewrite (received_by_app (Msg := message)), received_by_send_if_up.
    rewrite decide_True by done. rewrite Hup. cbn [app]. f_equal.
    rewrite introductions_to_newcomer.
    + by rewrite <- list_fmap_compose.
    + intros p [u [-> Hu]]%list_elem_of_fmap. cbn. by intros ->.
    + by rewrite deliverable_joined.
  - intros u Hu. assert (u ≠ client_id) as Hne by (by intros ->).
    rewrite (received_by_app (Msg := message)), received_by_send_if_up.
    rewrite decide_False by congruence. cbn [app].
    rewrite introductions_to_member by done.
    rewrite deliverable_joined. destruct (deliverable s u); [|done].
    rewrite <- list_fmap_compose.
    assert ((p_client_id ∘ (λ u0, {| p_client_id := u0;
                                     p_username := profile_name s u0;
                                     p_room_id := room |})) <$> members
            = members) as ->.
    { rewrite <- (list_fmap_id members) at 2. by apply list_fmap_ext. }
    by rewrite occurrences_NoDup.
Qed.

(** Dan joins the lobby of Ann, Bob and Cleo. *)
Lemma join_introduces_everyone_witness :
  received_by "c4"
    (wire_of (on_message "c4" (join_msg "lobby" "Dan")
                (state_of (connect (socket 4) "c4" patchy_lobby))))
  = [joined "lobby" "c4" "Dan"
       [{| p_client_id := "c1"; p_username := "Ann"; p_room_id := "lobby" |};
        {| p_client_id := "c2"; p_username := "Bob"; p_room_id := "lobby" |};
        {| p_client_id := "c3"; p_username := "Cleo";
           p_room_id := "lobby" |}];
     user_joined "c1" "Ann" false; user_joined "c2" "Bob" false;
     user_joined "c3" "Cleo" false].
Proof.
  destruct (join_introduces_everyone
              (state_of (connect (socket 4) "c4" patchy_lobby)) "c4"
              (join_msg "lobby" "Dan")) as [Hnew _].
  - reflexivity.
  - apply (bool_decide_unpack _). vm_compute. exact I.
  - apply (bool_decide_unpack _). vm_compute. exact I.
  - reflexivity.
  - exact Hnew.
Defined.

(** X11.  The participants of the [joined] reply are the members the room
    had before the join, in order, without the joiner itself even when it
    was listed already, each under its stored name (["Unknown"] when it has
    no profile) and tagged with the room; the reply is the first message on
    the wire. *)
Theorem joined_lists_previous_members (s : ConnectionManager)
  (client_id : string) (data : inbound) :
  m_type data = Some "join" → deliverable s client_id = true →
  let room := default "default" (m_room data) in
  let name := default "Anonymous" (m_username data) in
  ∃ rest,
    wire_of (on_message client_id data s) =
      (client_id,
       joined room client_id name
         ((λ u, {| p_client_id := u; p_username := profile_name s u;
                   p_room_id := room |})
            <$> filter (λ u, u ≠ client_id) (room_members s room)))
      :: rest.
Proof.
  intros Hty Hup room name.
  rewrite on_message_join by done. rewrite handle_join_run.
  cbn [wire_of snd]. fold room name.
  unfold send_if_up at 1. rewrite deliverable_joined, Hup.
  eexists. cbn [app]. do 3 f_equal.
  rewrite other_users_members, room_members_joined, decide_True by done.
  rewrite filter_app, filter_cons_False by naive_solver.
  rewrite filter_nil, app_nil_r.
  apply list_fmap_ext. intros i u Hu.
  apply list_elem_of_lookup_2, list_elem_of_filter in Hu as [Hne _].
  by rewrite profile_name_joined, decide_False.
Qed.

(** Ann joins the lobby a second time: the reply lists Bob alone. *)
Lemma joined_lists_previous_members_witness :
  ∃ rest,
    wire_of (on_message "c1" (join_msg "lobby" "Ann") lobby) =
      ("c1", joined "lobby" "c1" "Ann"
               [{| p_client_id := "c2"; p_username := "Bob";
                   p_room_id := "lobby" |}]) :: rest.
Proof.
  apply (joined_lists_previous_members lobby "c1" (join_msg "lobby" "Ann"));
    reflexivity.
Defined.

(** *** The statistics endpoint *)

(** X12.  What [get_stats] reports of a reachable registry.  The number of
    rooms is the number of entries reported; an entry lists the members of
    its room with as many names as members, and at least one member, since
    a room is deleted when its last member disconnects.  When every join
    came from a connection without a stored profile and named a room by a
    non-empty id, no member is listed twice and every name is the one
    stored for a profile that names this room: none is the ["Unknown"]
    default. *)
Theorem stats_of_reachable (s : ConnectionManager) (r : string)
  (st : RoomStats) :
  reachable s → stats_rooms (get_stats s) !! r = Some st →
  total_rooms (get_stats s) = size (stats_rooms (get_stats s))
  ∧ st_users st = room_members s r
  ∧ st_count st = length (st_users st)
  ∧ length (st_usernames st) = st_count st
  ∧ (1 ≤ st_count st)%nat
  ∧ (reachable_joining_once s →
     NoDup (st_users st)
     ∧ ∀ i u, st_users st !! i = Some u →
         ∃ info, user_info s !! u = Some info
                 ∧ room_id info = r
                 ∧ st_usernames st !! i = Some (username info)).
Proof.
  intros Hreach Hst. cbn [get_stats stats_rooms total_rooms] in *.
  rewrite lookup_fmap in Hst.
  destruct (rooms s !! r) as [members|] eqn:Hroom; [|done].
  cbn in Hst. injection Hst as <-.
  cbn [st_users st_count st_usernames].
  assert (room_members s r = members) as Hmembers
    by (unfold room_members; by rewrite Hroom).
  split_and!.
  - by rewrite map_size_fmap.
  - done.
  - done.
  - by rewrite length_fmap.
  - pose proof (reachable_no_empty_room s Hreach r members Hroom).
    destruct members; [done|cbn; lia].
  - intros Honce%reachable_joining_once_consistent.
    destruct Honce as [Hiff Hnodup _]. split.
    + rewrite <- Hmembers. apply Hnodup.
    + intros i u Hu.
      assert (u ∈ room_members s r) as Hin.
      { rewrite Hmembers. by apply list_elem_of_lookup_2 in Hu. }
      apply Hiff in Hin. unfold profile_room in Hin.
      destruct (user_info s !! u) as [info|] eqn:Hinfo; [|done].
      injection Hin as Hin. exists info. split_and!; [done|done|].
      rewrite list_lookup_fmap, Hu. cbn. unfold profile_name.
      by rewrite Hinfo.
Qed.

Lemma stats_of_reachable_witness :
  stats_rooms (get_stats lobby) !! "lobby"
  = Some {| st_users := ["c1"; "c2"]; st_count := 2;
            st_usernames := ["Ann"; "Bob"] |}
  ∧ total_rooms (get_stats lobby) = size (stats_rooms (get_stats lobby))
  ∧ NoDup ["c1"; "c2"].
Proof.
  assert (stats_rooms (get_stats lobby) !! "lobby"
          = Some {| st_users := ["c1"; "c2"]; st_count := 2;
                    st_usernames := ["Ann"; "Bob"] |}) as Hst
    by (vm_compute; reflexivity).
  destruct (stats_of_reachable lobby "lobby" _
              (reachable_joining_once_reachable _ lobby_joining_once) Hst)
    as (Hsize & _ & _ & _ & _ & Honce).
  destruct (Honce lobby_joining_once) as [Hnodup _].
  split_and!; [exact Hst | exact Hsize | exact Hnodup].
Defined.

(** *** Connecting *)

(** X13.  [connect] returns [True] and files the channel under the id,
    replacing the channel that was registered under it, if any; rooms and
    profiles are not touched, so an id that connects again keeps the
    profile and the room listings it had.  The count of clients that
    [health_check] reports grows by one for an id that was not registered
    and stays for one that was; a unicast to the id now goes to the new
    channel. *)
Theorem connect_replaces_channel (s : ConnectionManager) (ws : WebSocket)
  (client_id : string) (msg : message) :
  let s' := state_of (connect ws client_id s) in
  result_of (connect ws client_id s) = Ret true
  ∧ wire_of (connect ws client_id s) = []
  ∧ active_connections s' !! client_id = Some ws
  ∧ (∀ u, u ≠ client_id →
       active_connections s' !! u = active_connections s !! u)
  ∧ rooms s' = rooms s ∧ user_info s' = user_info s
  ∧ h_clients (health_check s') =
      match active_connections s !! client_id with
      | Some _ => h_clients (health_check s)
      | None => S (h_clients (health_check s))
      end
  ∧ send_to_client msg client_id s' =
      (Ret (ws_connected ws), s',
       if ws_connected ws then [(client_id, msg)] else []).
Proof.
  intros s'. subst s'. unfold connect. rewrite bind_modify.
  cbn [ret result_of state_of wire_of fst snd active_connections rooms
       user_info health_check h_clients].
  split_and!; try done.
  - apply lookup_insert_eq.
  - intros u Hu. by rewrite lookup_insert_ne.
  - destruct (active_connections s !! client_id) as [old|] eqn:Hold.
    + rewrite <- (insert_id _ _ _ Hold) at 2.
      rewrite <- (insert_delete_eq (active_connections s)).
      rewrite <- (insert_delete_eq (active_connections s) client_id old).
      rewrite !map_size_insert_None by apply lookup_delete_eq. done.
    + by apply map_size_insert_None.
  - rewrite send_to_client_run. unfold deliverable.
    cbn [active_connections]. by rewrite lookup_insert_eq.
Qed.

(** Bob connects again with a working channel: Ann keeps hers. *)
Lemma connect_replaces_channel_witness :
  active_connections (state_of (connect (socket 5) "c2" hallway)) !! "c2"
  = Some (socket 5)
  ∧ active_connections (state_of (connect (socket 5) "c2" hallway)) !! "c1"
    = active_connections hallway !! "c1"
  ∧ h_clients (health_check (state_of (connect (socket 5) "c2" hallway)))
    = 2.
Proof.
  destruct (connect_replaces_channel hallway (socket 5) "c2" pong)
    as (_ & _ & Hnew & Hothers & _ & _ & Hcount & _).
  split_and!.
  - exact Hnew.
  - apply Hothers. discriminate.
  - rewrite Hcount. reflexivity.
Defined.

(** *** Closing without a profile *)

(** X14.  The cleanup of a disconnect never sends to the closing connection
    itself.  When the connection has no profile (it never joined, or was
    cleaned up already), the cleanup only unregisters the channel: the room
    table and the profiles are as before, also when the id is still listed
    in a room, and nobody is notified. *)
Theorem close_without_profile_is_silent (s : ConnectionManager)
  (client_id : string) :
  received_by client_id (wire_of (on_close client_id s)) = []
  ∧ (user_info s !! client_id = None →
     on_close client_id s =
       (Ret (),
        {| active_connections := delete client_id (active_connections s);
           rooms := rooms s;
           user_info := user_info s |},
        [])).
Proof.
  unfold on_close. rewrite handle_client_disconnect_run.
  cbn [wire_of snd]. split.
  - unfold departure_notices.
    destruct (profile_room s client_id) as [r|]; [|done].
    destruct (truthy_str (Some r)); [|done].
    apply received_by_deliveries_absent.
    intros [[Hself _] _]%list_elem_of_filter. done.
  - intros Hnone. unfold departure_notices, disconnect, rooms_without.
    unfold profile_room. rewrite Hnone. cbn [fmap option_fmap option_map].
    cbn [active_connections rooms user_info].
    by rewrite (delete_id (user_info s)) by done.
Qed.

(** Ann is connected and has not joined; her channel closes. *)
Lemma close_without_profile_is_silent_witness :
  on_close "c1" hallway =
    (Ret (),
     {| active_connections := delete "c1" (active_connections hallway);
        rooms := rooms hallway;
        user_info := user_info hallway |},
     []).
Proof.
  apply (close_without_profile_is_silent hallway "c1"). reflexivity.
Defined.

(** *** C6: one notice per listing *)

(** C6, counterexample.  Bob joined the lobby twice, so the lobby lists him
    twice; Ann is in the lobby and her channel closes.  The registry is
    reachable, and Bob receives two [user_left] for Ann: the loop of
    [handle_client_disconnect] sends once per listing. *)
Lemma disconnect_notice_counts_listings : ¬ disconnect_cleanup_as_worded.
Proof.
  intros Hclaim.
  assert (reachable twice_lobby) as Hreach
    by (apply run_reachable, reachable_init).
  assert (received_by "c2" (wire_of (on_close "c1" twice_lobby))
          = [user_left "c1" "Ann"; user_left "c1" "Ann"]) as Htwice
    by (vm_compute; reflexivity).
  rewrite (Hclaim twice_lobby "c1" "c2" "lobby") in Htwice.
  - discriminate Htwice.
  - exact Hreach.
  - reflexivity.
  - apply (bool_decide_unpack _). vm_compute. exact I.
  - apply (bool_decide_unpack _). vm_compute. exact I.
  - discriminate.
  - reflexivity.
Qed.

End VideoServerExtra.

(** ** More on [src/main.py]: disconnect, the relays, join and the
    dispatch *)

Module MainExtra.
Import MainFacts.

(** *** Disconnect *)

(** X15.  The [disconnect] of [main.py] unregisters the id and takes its
    first occurrence out of every room, whichever room that is; it deletes
    no room and removes no other id.  When no member list holds an id
    twice, the id is in no room afterwards. *)
Theorem main_disconnect_cleans_every_room (s : Main.ConnectionManager)
  (client_id : string) :
  let s' := state_of (Main.on_close client_id s) in
  Main.active_connections s' !! client_id = None
  ∧ (∀ u, u ≠ client_id →
       Main.active_connections s' !! u = Main.active_connections s !! u)
  ∧ (∀ r, Main.rooms s' !! r = list_remove client_id <$> Main.rooms s !! r)
  ∧ (∀ r u members members',
       u ≠ client_id → Main.rooms s !! r = Some members →
       Main.rooms s' !! r = Some members' →
       occurrences u members' = occurrences u members)
  ∧ ((∀ r members, Main.rooms s !! r = Some members → NoDup members) →
     ∀ r members', Main.rooms s' !! r = Some members' →
                   client_id ∉ members').
Proof.
  intros s'. subst s'. unfold Main.on_close, modify.
  cbn [state_of fst snd Main.disconnect Main.active_connections Main.rooms].
  assert (∀ r,
    ((λ clients, if decide (client_id ∈ clients)
                 then list_remove client_id clients else clients)
       <$> Main.rooms s) !! r
    = list_remove client_id <$> Main.rooms s !! r) as Hlookup.
  { intros r. rewrite lookup_fmap.
    destruct (Main.rooms s !! r) as [members|]; [|done]. cbn.
    case_decide; [done|]. by rewrite list_remove_not_in. }
  split_and!.
  - apply lookup_delete_eq.
  - intros u Hu. by rewrite lookup_delete_ne.
  - exact Hlookup.
  - intros r u members members' Hu Hr. rewrite Hlookup, Hr.
    intros [= <-]. by apply occurrences_list_remove_ne.
  - intros Hnodup r members'. rewrite Hlookup.
    destruct (Main.rooms s !! r) as [members|] eqn:Hr; [|done].
    intros [= <-]. apply list_remove_NoDup_gone. by apply (Hnodup r).
Qed.

(** Ann, in the lobby with Bob, disconnects from the minimal server. *)
Lemma main_disconnect_cleans_every_room_witness :
  Main.rooms (state_of (Main.on_close "c1" Main.main_lobby)) !! "lobby"
  = Some ["c2"]
  ∧ ∀ r members',
      Main.rooms (state_of (Main.on_close "c1" Main.main_lobby)) !! r
      = Some members' → "c1" ∉ members'.
Proof.
  destruct (main_disconnect_cleans_every_room Main.main_lobby "c1")
    as (_ & _ & Hrooms & _ & Hgone).
  split.
  - rewrite Hrooms. reflexivity.
  - apply Hgone. intros r members Hr.
    destruct (decide (r = "lobby")) as [->|Hne].
    + vm_compute in Hr. injection Hr as <-.
      apply (bool_decide_unpack _). vm_compute. exact I.
    + unfold Main.main_lobby in Hr. cbn [Main.rooms] in Hr.
      by rewrite lookup_singleton_ne in Hr.
Defined.

(** *** The dispatch *)

(** X16.  A message whose type is absent or is not one of [join], [offer],
    [answer], [ice_candidate] and [leave] is ignored by [main.py]: the loop
    goes on, the registry is unchanged and nothing is sent.  [chat] and
    [ping] are among the ignored types. *)
Theorem main_undispatched_type_is_ignored (s : Main.ConnectionManager)
  (client_id : string) (data : inbound) :
  ¬ Main.dispatched (m_type data) →
  Main.on_message client_id data s = (Ret (), s, []).
Proof.
  intros Hnot. unfold Main.on_message, Main.dispatched in *.
  repeat (case_decide; [naive_solver|]). done.
Qed.

Lemma main_undispatched_type_is_ignored_witness :
  Main.on_message "c1" (typed "ping") Main.main_lobby
  = (Ret (), Main.main_lobby, [])
  ∧ Main.on_message "c1" (VideoServer.chat_msg "lobby" "hello")
      Main.main_lobby
    = (Ret (), Main.main_lobby, []).
Proof.
  split; apply main_undispatched_type_is_ignored;
    intros Hd; repeat destruct Hd as [Hd|Hd]; discriminate Hd.
Defined.

(** X17.  A [leave] changes nothing and notifies nobody when it names no
    room, names a room that is not in the table, or names a room that does
    not list the sender. *)
Theorem main_leave_elsewhere_is_ignored (s : Main.ConnectionManager)
  (client_id : string) (data : inbound) :
  m_type data = Some "leave" →
  m_room data = None
  ∨ (∃ room, m_room data = Some room
             ∧ client_id ∉ default [] (Main.rooms s !! room)) →
  Main.on_message client_id data s = (Ret (), s, []).
Proof.
  intros Hty Hcase. rewrite on_message_leave by done.
  unfold Main.on_leave. rewrite bind_get.
  destruct Hcase as [-> | (room & -> & Habsent)]; [done|].
  destruct (Main.rooms s !! room) as [members|]; [|done].
  cbn in Habsent. by rewrite decide_False.
Qed.

Lemma main_leave_elsewhere_is_ignored_witness :
  Main.on_message "c2" (leave_msg "lobby") Main.main_alone_pair
  = (Ret (), Main.main_alone_pair, [])
  ∧ Main.on_message "c1" (leave_msg "attic") Main.main_alone_pair
    = (Ret (), Main.main_alone_pair, []).
Proof.
  split; apply main_leave_elsewhere_is_ignored; try reflexivity; right.
  - exists "lobby". split; [reflexivity|].
    apply (bool_decide_unpack _). vm_compute. exact I.
  - exists "attic". split; [reflexivity|].
    apply (bool_decide_unpack _). vm_compute. exact I.
Defined.

(** *** The relays *)

Lemma keeps_state_send_to_client msg client_id :
  keeps_state (Main.send_to_client msg client_id).
Proof.
  intros s. unfold Main.send_to_client. rewrite bind_get.
  destruct (Main.active_connections s !! client_id);
    [apply keeps_state_send_json | done].
Qed.

Lemma on_relay_run wrap key client_id target payload s :
  Main.on_relay wrap key client_id target payload s =
    match target, payload with
    | None, _ => (Raise (KeyError "target"), s, [])
    | Some _, None => (Raise (KeyError key), s, [])
    | Some t, Some body =>
        match Main.active_connections s !! t with
        | None => (Ret (), s, [])
        | Some ws =>
            if ws_connected ws then (Ret (), s, [(t, wrap client_id body)])
            else (Raise ChannelError, s, [])
        end
    end.
Proof.
  unfold Main.on_relay, Main.item.
  destruct target as [t|]; [|done]. rewrite bind_ret.
  destruct payload as [body|]; [|done]. rewrite bind_ret.
  unfold Main.send_to_client. rewrite bind_get.
  destruct (Main.active_connections s !! t) as [ws|]; [|done].
  unfold Main.send_json. by destruct (ws_connected ws).
Qed.

(** The relay branches taken alone, without the [except] clause of the
    endpoint: they read their fields with [data[key]] and send without a
    [try], so a missing [target] raises [KeyError] for ["target"], a missing
    payload [KeyError] for its key, and a refused send raises out of the
    branch. *)
Theorem main_relay_outcome (s : Main.ConnectionManager) (client_id : string)
  (data : inbound) (key : string) (wrap : string → json → Main.message)
  (payload : option json) :
  Main.relayed data = Some (key, wrap, payload) →
  Main.on_message client_id data s =
    match m_target data, payload with
    | None, _ => (Raise (KeyError "target"), s, [])
    | Some _, None => (Raise (KeyError key), s, [])
    | Some t, Some body =>
        match Main.active_connections s !! t with
        | None => (Ret (), s, [])
        | Some ws =>
            if ws_connected ws then (Ret (), s, [(t, wrap client_id body)])
            else (Raise ChannelError, s, [])
        end
    end.
Proof.
  unfold Main.relayed, Main.on_message. intros Hrelayed.
  destruct (decide (m_type data = Some "offer")) as [Hty|?].
  { injection Hrelayed as <- <- <-. rewrite Hty.
    rewrite decide_False by congruence. apply on_relay_run. }
  destruct (decide (m_type data = Some "answer")) as [Hty|?].
  { injection Hrelayed as <- <- <-. rewrite Hty.
    rewrite decide_False by congruence. apply on_relay_run. }
  destruct (decide (m_type data = Some "ice_candidate")) as [Hty|?]; [|done].
  injection Hrelayed as <- <- <-. rewrite Hty.
  rewrite decide_False by congruence. apply on_relay_run.
Qed.

(** An offer with an empty payload reaches Cleo; one to Bob raises; one
    without target raises [KeyError]. *)
Lemma main_relay_outcome_witness :
  Main.on_message "c1" (VideoServer.offer_msg "c3" (JObj [])) Main.main_trio
  = (Ret (), Main.main_trio, [("c3", Main.offer "c1" (JObj []))])
  ∧ Main.on_message "c1" (VideoServer.offer_msg "c2" VideoServer.sdp)
      Main.main_trio
    = (Raise ChannelError, Main.main_trio, [])
  ∧ Main.on_message "c1" (typed "answer") Main.main_trio
    = (Raise (KeyError "target"), Main.main_trio, []).
Proof.
  split_and!.
  - rewrite (main_relay_outcome _ _ _ "offer" Main.offer (Some (JObj [])));
      reflexivity.
  - rewrite (main_relay_outcome _ _ _ "offer" Main.offer
               (Some VideoServer.sdp)); reflexivity.
  - rewrite (main_relay_outcome _ _ _ "answer" Main.answer None);
      reflexivity.
Defined.

(** *** Broadcasts *)

Lemma bind_step {S E A B} (m : M S E A) (f : A → M S E B) s a s1 out1
  r s2 out2 :
  m s = (Ret a, s1, out1) → f a s1 = (r, s2, out2) →
  bind m f s = (r, s2, out1 ++ out2).
Proof. intros Hm Hf. unfold bind. by rewrite Hm, Hf. Qed.

(** X19.  A broadcast of [main.py] stops at the first refused send.  When
    the member list of the room is [before ++ u :: rest], the sends to
    [before] succeed and the channel of [u], which is not the excluded id,
    refuses the send, the broadcast raises; the registered members of
    [before] other than the excluded id have the message, and no member of
    [rest] is served. *)
Theorem main_broadcast_stops_at_refusal (s : Main.ConnectionManager)
  (msg : Main.message) (room : string) (exclude_client : option string)
  (before rest : list string) (u : string) :
  Main.rooms s !! room = Some (before ++ u :: rest) →
  Some u ≠ exclude_client → Main.refuses s u →
  Main.channels_up s before →
  Main.broadcast_to_room msg room exclude_client s =
    (Raise ChannelError, s,
     (λ v, (v, msg))
       <$> filter (λ v, Some v ≠ exclude_client ∧ Main.live s v) before).
Proof.
  intros Hroom Hexcl (ws & Hws & Hdead) Hup.
  unfold Main.broadcast_to_room. rewrite bind_get, Hroom. clear Hroom.
  induction before as [|v before IH].
  - cbn [app for_each filter list_filter fmap list_fmap].
    rewrite decide_True by done. rewrite Hws.
    unfold bind, Main.send_json. by rewrite Hdead.
  - cbn [app for_each]. rewrite filter_cons.
    assert (Main.channels_up s before) as Hup'.
    { intros w ws' Hw. apply Hup. by right. }
    specialize (IH Hup').
    destruct (decide (Some v ≠ exclude_client ∧ Main.live s v))
      as [[Hv [ws' Hws']]|Hno].
    + rewrite decide_True by done. rewrite Hws'.
      apply (bind_step _ _ _ () s [(v, msg)]); [|exact IH].
      unfold Main.send_json. by rewrite (Hup v ws' ltac:(left) Hws').
    + assert ((if decide (Some v ≠ exclude_client)
               then match Main.active_connections s !! v with
                    | Some ws0 => Main.send_json ws0 v msg
                    | None => ret ()
                    end
               else ret ()) s = (Ret (), s, [])) as Hskip.
      { case_decide as Hv; [|done].
        destruct (Main.active_connections s !! v) as [ws'|] eqn:Hws'; [|done].
        destruct Hno. split; [done|]. unfold Main.live. rewrite Hws'. eauto. }
      by rewrite (bind_quiet_step _ _ _ _ Hskip).
Qed.

(** Ann, Cleo, Bob, Cleo are listed; Bob's channel refuses the send: Cleo is
    served once, not twice. *)
Lemma main_broadcast_stops_at_refusal_witness :
  Main.broadcast_to_room (Main.user_left "c1") "lobby" (Some "c1")
    Main.main_trio
  = (Raise ChannelError, Main.main_trio, [("c3", Main.user_left "c1")]).
Proof.
  rewrite (main_broadcast_stops_at_refusal Main.main_trio
             (Main.user_left "c1") "lobby" (Some "c1") ["c1"; "c3"] ["c3"]
             "c2").
  - vm_compute. reflexivity.
  - reflexivity.
  - congruence.
  - exists (dead_socket 2). split; reflexivity.
  - intros v ws Hv Hws.
    apply elem_of_cons in Hv as [->|Hv];
      [|apply list_elem_of_singleton in Hv as ->];
      vm_compute in Hws; by injection Hws as <-.
Defined.

(** *** Join *)

Lemma joined_state_lookup client_id room s :
  Main.rooms (Main.joined_state client_id room s) !! room =
    Some (default [] (Main.rooms s !! room) ++ [client_id]).
Proof.
  unfold Main.joined_state. cbn [Main.rooms].
  rewrite VideoServerFacts.rooms_after_append. apply lookup_insert_eq.
Qed.

Lemma on_join_run client_id room data s :
  m_type data = Some "join" → m_room data = Some room →
  Main.on_message client_id data s =
    (Main.broadcast_to_room
       (Main.user_joined client_id (default "Anonymous" (m_username data)))
       room (Some client_id) ;;;
     s' <- get ;;
     Main.send_to_client
       (Main.room_info room
          ((λ cid, {| Main.p_id := cid; Main.p_username := "User" |})
             <$> filter (λ cid, cid ≠ client_id)
                        (default [] (Main.rooms s' !! room))))
       client_id) (Main.joined_state client_id room s).
Proof.
  intros Hty Hroom. unfold Main.on_message. rewrite decide_True by done.
  unfold Main.on_join. rewrite Hroom. unfold Main.item.
  by rewrite bind_ret, bind_modify.
Qed.

(** X20.  The join of [main.py], when no channel of the room refuses the
    send.  The newcomer is appended to the room, created if need be.  Every
    other registered member is told [user_joined] with the newcomer's id and
    name, in list order; then the newcomer, if registered, is sent
    [room_info] listing the ids of the other members, each under the fixed
    name ["User"].  The handler returns. *)
Theorem main_join_announces (s : Main.ConnectionManager)
  (client_id room : string) (data : inbound) :
  m_type data = Some "join" → m_room data = Some room →
  let members := default [] (Main.rooms s !! room) in
  let name := default "Anonymous" (m_username data) in
  Main.channels_up s (members ++ [client_id]) →
  Main.on_message client_id data s =
    (Ret (), Main.joined_state client_id room s,
     ((λ u, (u, Main.user_joined client_id name))
        <$> filter (λ u, u ≠ client_id ∧ Main.live s u) members)
     ++ (if decide (Main.live s client_id)
         then [(client_id,
                Main.room_info room
                  ((λ cid, {| Main.p_id := cid; Main.p_username := "User" |})
                     <$> filter (λ cid, cid ≠ client_id) members))]
         else [])).
Proof.
  intros Hty Hroom members name Hup.
  rewrite (on_join_run client_id room) by done. fold name.
  set (s' := Main.joined_state client_id room s).
  pose proof (joined_state_lookup client_id room s) as Hlookup.
  fold members s' in Hlookup.
  assert (filter (λ cid, cid ≠ client_id) (members ++ [client_id])
          = filter (λ cid, cid ≠ client_id) members) as Hothers.
  { rewrite filter_app, filter_cons_False by naive_solver.
    by rewrite filter_nil, app_nil_r. }
  assert (Main.broadcast_to_room (Main.user_joined client_id name) room
            (Some client_id) s'
          = (Ret (), s',
             (λ u, (u, Main.user_joined client_id name))
               <$> filter (λ u, u ≠ client_id ∧ Main.live s u) members))
    as Hbroadcast.
  { rewrite broadcast_to_room_run; rewrite Hlookup; [|exact Hup].
    cbn [default from_option id]. do 2 f_equal.
    rewrite filter_app, filter_cons_False by naive_solver.
    rewrite filter_nil, app_nil_r. apply list_filter_iff.
    intros u. unfold Main.live. cbn. naive_solver. }
  eapply bind_step; [exact Hbroadcast|].
  rewrite bind_get, Hlookup.
  cbn [default from_option id]. rewrite Hothers.
  unfold Main.send_to_client. rewrite bind_get.
  unfold Main.live. cbn [s' Main.joined_state Main.active_connections].
  destruct (Main.active_connections s !! client_id) as [ws|] eqn:Hws.
  - rewrite decide_True by eauto. unfold Main.send_json.
    rewrite (Hup client_id ws); [done| |done].
    apply elem_of_app. right. left.
  - rewrite decide_False; [done|]. by intros [ws Hws'].
Qed.

(** Bob joins the lobby of Ann on the minimal server. *)
Lemma main_join_announces_witness :
  Main.on_message "c2" (join_msg "lobby" "Bob") Main.main_alone_pair
  = (Ret (), Main.joined_state "c2" "lobby" Main.main_alone_pair,
     [("c1", Main.user_joined "c2" "Bob");
      ("c2", Main.room_info "lobby"
               [{| Main.p_id := "c1"; Main.p_username := "User" |}])]).
Proof.
  rewrite (main_join_announces Main.main_alone_pair "c2" "lobby"
             (join_msg "lobby" "Bob")).
  - vm_compute. reflexivity.
  - reflexivity.
  - reflexivity.
  - intros u ws Hu Hws. vm_compute in Hu.
    apply elem_of_cons in Hu as [->|Hu];
      [|apply list_elem_of_singleton in Hu as ->];
      vm_compute in Hws; by injection Hws as <-.
Defined.

(** *** What no message does *)

Lemma keeps_state_get {S E} : keeps_state (get : M S E S).
Proof. done. Qed.

Lemma on_message_other_state client_id data s :
  m_type data ≠ Some "join" → m_type data ≠ Some "leave" →
  state_of (Main.on_message client_id data s) = s.
Proof.
  intros Hnojoin Hnoleave. unfold Main.on_message.
  rewrite decide_False by done.
  repeat case_decide; try done; rewrite on_relay_run;
    destruct (m_target data); try done;
    match goal with
    | |- context [match ?p with Some _ => _ | None => _ end] =>
        destruct p; try done
    end;
    destruct (Main.active_connections s !! _) as [ws|]; try done;
    by destruct (ws_connected ws).
Qed.

Lemma on_message_state_cases client_id data s :
  state_of (Main.on_message client_id data s) = s
  ∨ (∃ room,
       state_of (Main.on_message client_id data s)
       = Main.joined_state client_id room s)
  ∨ (∃ room members,
       Main.rooms s !! room = Some members ∧ client_id ∈ members
       ∧ state_of (Main.on_message client_id data s)
         = Main.left_state client_id room members s).
Proof.
  destruct (decide (m_type data = Some "join")) as [Hjoin|Hnojoin].
  { destruct (m_room data) as [room|] eqn:Hroom.
    - right. left. exists room.
      rewrite (on_join_run client_id room) by done.
      apply keeps_state_bind; [apply keeps_state_broadcast|].
      intros _. apply keeps_state_bind; [apply keeps_state_get|].
      intros s'. apply keeps_state_send_to_client.
    - left. unfold Main.on_message. rewrite decide_True by done.
      unfold Main.on_join. by rewrite Hroom. }
  destruct (decide (m_type data = Some "leave")) as [Hleave|Hnoleave].
  { destruct (m_room data) as [room|] eqn:Hroom.
    - destruct (Main.rooms s !! room) as [members|] eqn:Hmembers.
      + destruct (decide (client_id ∈ members)) as [Hin|Hout].
        * right. right. exists room, members. split_and!; [done..|].
          by apply on_leave_state.
        * left. rewrite on_message_leave by done. unfold Main.on_leave.
          rewrite bind_get, Hroom, Hmembers. by rewrite decide_False.
      + left. rewrite on_message_leave by done. unfold Main.on_leave.
        by rewrite bind_get, Hroom, Hmembers.
    - left. rewrite on_message_leave by done. unfold Main.on_leave.
      by rewrite bind_get, Hroom. }
  left. by apply on_message_other_state.
Qed.

(** The branches taken alone, without the [except] clause of the endpoint:
    whether the branch returns or raises, the table of connections is as
    before, every room that was in the table is still in it, every id other
    than the sender is listed in every room as many times as before, and a
    message that is neither a [join] nor a [leave] leaves the registry as
    it was. *)
Theorem main_message_never_unregisters (s : Main.ConnectionManager)
  (client_id : string) (data : inbound) :
  let s' := state_of (Main.on_message client_id data s) in
  Main.active_connections s' = Main.active_connections s
  ∧ (∀ r, is_Some (Main.rooms s !! r) → is_Some (Main.rooms s' !! r))
  ∧ (∀ r u, u ≠ client_id →
       occurrences u (default [] (Main.rooms s' !! r))
       = occurrences u (default [] (Main.rooms s !! r)))
  ∧ (m_type data ≠ Some "join" → m_type data ≠ Some "leave" → s' = s).
Proof.
  intros s'. subst s'.
  assert (m_type data ≠ Some "join" → m_type data ≠ Some "leave" →
          state_of (Main.on_message client_id data s) = s) as Hother
    by apply on_message_other_state.
  destruct (on_message_state_cases client_id data s)
    as [Hsame|[(room & Hjoined)|(room & members & Hroom & Hin & Hleft)]].
  - rewrite Hsame. by split_and!.
  - rewrite Hjoined in *. split_and!; [done| | |done].
    + intros r Hr. unfold Main.joined_state.
      cbn [Main.rooms]. rewrite VideoServerFacts.rooms_after_append.
      destruct (decide (r = room)) as [->|Hne].
      * rewrite lookup_insert_eq. eauto.
      * by rewrite lookup_insert_ne.
    + intros r u Hu. unfold Main.joined_state.
      cbn [Main.rooms]. rewrite VideoServerFacts.rooms_after_append.
      destruct (decide (r = room)) as [->|Hne].
      * rewrite lookup_insert_eq. cbn [default from_option id].
        rewrite occurrences_app. unfold occurrences at 2.
        rewrite filter_cons_False by congruence. cbn. lia.
      * by rewrite lookup_insert_ne.
  - rewrite Hleft in *. split_and!; [done| | |done].
    + intros r Hr. unfold Main.left_state. cbn [Main.rooms].
      destruct (decide (r = room)) as [->|Hne].
      * rewrite lookup_insert_eq. eauto.
      * by rewrite lookup_insert_ne.
    + intros r u Hu. unfold Main.left_state. cbn [Main.rooms].
      destruct (decide (r = room)) as [->|Hne].
      * rewrite lookup_insert_eq, Hroom. cbn [default from_option id].
        by apply occurrences_list_remove_ne.
      * by rewrite lookup_insert_ne.
Qed.

(** A ping changes nothing in the registry of the minimal server; Ann's
    leave keeps Bob listed. *)
Lemma main_message_never_unregisters_witness :
  state_of (Main.on_message "c1" (typed "ping") Main.main_lobby)
  = Main.main_lobby
  ∧ occurrences "c2"
      (default []
         (Main.rooms
            (state_of (Main.on_message "c1" (leave_msg "lobby")
                         Main.main_lobby)) !! "lobby"))
    = occurrences "c2" (default [] (Main.rooms Main.main_lobby !! "lobby")).
Proof.
  split.
  - apply (main_message_never_unregisters Main.main_lobby "c1"
             (typed "ping")); discriminate.
  - apply (main_message_never_unregisters Main.main_lobby "c1"
             (leave_msg "lobby")). discriminate.
Defined.

(** *** The endpoint with its [except] clause *)

Lemma endpoint_turn_returns kind client_id data s a s' out :
  Main.on_message client_id data s = (Ret a, s', out) →
  Main.endpoint_turn kind client_id data s = (Ret a, s', out).
Proof. intros Hrun. unfold Main.endpoint_turn. by apply try_except_ret. Qed.

Lemma endpoint_turn_key_error kind client_id data s key s' out :
  Main.on_message client_id data s = (Raise (KeyError key), s', out) →
  Main.endpoint_turn kind client_id data s = (Raise (KeyError key), s', out).
Proof.
  intros Hrun. unfold Main.endpoint_turn, try_except. rewrite Hrun.
  unfold raise. by rewrite app_nil_r.
Qed.

Lemma endpoint_turn_refused client_id data s s' out :
  Main.on_message client_id data s = (Raise ChannelError, s', out) →
  Main.endpoint_turn Main.PeerGone client_id data s
  = (Ret (), Main.disconnect client_id s', out)
  ∧ Main.endpoint_turn Main.ClosedHere client_id data s
    = (Raise ChannelError, s', out).
Proof.
  intros Hrun. unfold Main.endpoint_turn, try_except. rewrite Hrun.
  unfold modify, raise. by rewrite app_nil_r.
Qed.

Lemma on_leave_elsewhere client_id data s :
  m_type data = Some "leave" →
  m_room data = None
  ∨ (∃ room, m_room data = Some room
             ∧ client_id ∉ default [] (Main.rooms s !! room)) →
  Main.on_message client_id data s = (Ret (), s, []).
Proof.
  intros Hty Hcase. rewrite on_message_leave by done.
  unfold Main.on_leave. rewrite bind_get.
  destruct Hcase as [-> | (room & -> & Habsent)]; [done|].
  destruct (Main.rooms s !! room) as [members|]; [|done].
  cbn in Habsent. by rewrite decide_False.
Qed.

(** C8, amended.  A [leave] at the endpoint of [main.py], with its [except]
    clause.  When the [room] field names [r], the sender is listed in [r]
    and no channel of a remaining member refuses the send: the first
    occurrence of the sender leaves the member list of [r] (a sender listed
    once is no longer a member), the table of connections is as before (the
    connection stays open), [user_left] for the sender goes to the
    remaining members that are registered, in list order, and the turn
    returns.  A [leave] that names no room, or a room that does not list
    the sender, changes nothing and notifies nobody.  [video_server.py] has
    no [leave] branch: there the message changes nothing and notifies
    nobody. *)
Theorem leave_at_the_endpoint (s : Main.ConnectionManager) (c : string)
  (data : inbound) (kind : Main.refusal) :
  m_type data = Some "leave" →
  (∀ r members,
     m_room data = Some r → Main.rooms s !! r = Some members → c ∈ members →
     Main.channels_up s (list_remove c members) →
     let after := Main.endpoint_turn kind c data s in
     after =
       (Ret (), Main.left_state c r members s,
        (λ u, (u, Main.user_left c))
          <$> filter (λ u, Main.live s u) (list_remove c members))
     ∧ Main.rooms (state_of after) !! r = Some (list_remove c members)
     ∧ Main.active_connections (state_of after) = Main.active_connections s
     ∧ (NoDup members → c ∉ list_remove c members))
  ∧ (m_room data = None
     ∨ (∃ room, m_room data = Some room
                ∧ c ∉ default [] (Main.rooms s !! room)) →
     Main.endpoint_turn kind c data s = (Ret (), s, []))
  ∧ (∀ s', VideoServer.on_message c data s' = (Ret (), s', [])).
Proof.
  intros Hty. split_and!.
  - intros r members Hroom Hmembers Hin Hup after.
    destruct (leave_removes_and_notifies s c r data members
                Hty Hroom Hmembers Hin)
      as (_ & _ & _ & Hgone & Hrun).
    assert (after =
              (Ret (), Main.left_state c r members s,
               (λ u, (u, Main.user_left c))
                 <$> filter (λ u, Main.live s u) (list_remove c members)))
      as Hafter.
    { subst after. apply endpoint_turn_returns. by apply Hrun. }
    rewrite Hafter. cbn [state_of fst snd]. split_and!; [done| |done|done].
    unfold Main.left_state. cbn [Main.rooms]. apply lookup_insert_eq.
  - intros Hcase. apply endpoint_turn_returns.
    by apply on_leave_elsewhere.
  - intros s'. rewrite VideoServerFacts.on_message_run.
    unfold VideoServer.handle_websocket_message. rewrite Hty.
    repeat case_decide; try congruence; done.
Qed.

(** Ann leaves the lobby of the minimal server and Bob is told; Bob's
    leave of a room that does not list him is ignored; the rich server
    ignores Ann's leave. *)
Lemma leave_at_the_endpoint_witness :
  Main.endpoint_turn Main.PeerGone "c1" (leave_msg "lobby") Main.main_lobby
  = (Ret (),
     {| Main.active_connections := Main.active_connections Main.main_lobby;
        Main.rooms := {[ "lobby" := ["c2"] ]} |},
     [("c2", Main.user_left "c1")])
  ∧ Main.endpoint_turn Main.PeerGone "c2" (leave_msg "lobby")
      Main.main_alone_pair
    = (Ret (), Main.main_alone_pair, [])
  ∧ VideoServer.on_message "c1" (leave_msg "lobby") VideoServer.lobby
    = (Ret (), VideoServer.lobby, []).
Proof.
  split_and!.
  - destruct (leave_at_the_endpoint Main.main_lobby "c1"
                (leave_msg "lobby") Main.PeerGone eq_refl) as (Hleave & _).
    destruct (Hleave "lobby" ["c1"; "c2"]) as (Hrun & _);
      [reflexivity|reflexivity| | |].
    + apply (bool_decide_unpack _). vm_compute. exact I.
    + intros u ws Hu Hws. vm_compute in Hu.
      apply list_elem_of_singleton in Hu. subst u.
      vm_compute in Hws. by injection Hws as <-.
    + rewrite Hrun. vm_compute. reflexivity.
  - destruct (leave_at_the_endpoint Main.main_alone_pair "c2"
                (leave_msg "lobby") Main.PeerGone eq_refl)
      as (_ & Hignored & _).
    apply Hignored. right. exists "lobby". split; [reflexivity|].
    apply (bool_decide_unpack _). vm_compute. exact I.
  - destruct (leave_at_the_endpoint Main.main_lobby "c1"
                (leave_msg "lobby") Main.PeerGone eq_refl) as (_ & _ & Hrich).
    apply Hrich.
Defined.

(** X18.  The relays of [main.py] at the endpoint.  For an [offer],
    [answer] or [ice_candidate]: a missing [target] raises [KeyError] for
    ["target"], also when the payload is missing too; otherwise a missing
    payload raises [KeyError] for its key; both leave the endpoint with the
    registry unchanged.  Otherwise the message, with the sender's id and
    the payload as received, whatever its truth value, goes to the target
    when that is registered with a working channel, and nothing happens
    when it is not registered.  A refused send raises out of the branch:
    when it raises [WebSocketDisconnect], the [except] clause of the
    endpoint catches it and disconnects the sender, which is unregistered
    and taken out of the rooms that list it; another exception leaves the
    endpoint with the registry unchanged. *)
Theorem main_relay_at_the_endpoint (s : Main.ConnectionManager)
  (client_id : string) (data : inbound) (key : string)
  (wrap : string → json → Main.message) (payload : option json)
  (kind : Main.refusal) :
  Main.relayed data = Some (key, wrap, payload) →
  Main.endpoint_turn kind client_id data s =
    match m_target data, payload with
    | None, _ => (Raise (KeyError "target"), s, [])
    | Some _, None => (Raise (KeyError key), s, [])
    | Some t, Some body =>
        match Main.active_connections s !! t with
        | None => (Ret (), s, [])
        | Some ws =>
            if ws_connected ws then (Ret (), s, [(t, wrap client_id body)])
            else match kind with
                 | Main.PeerGone => (Ret (), Main.disconnect client_id s, [])
                 | Main.ClosedHere => (Raise ChannelError, s, [])
                 end
        end
    end.
Proof.
  intros Hrelayed.
  pose proof (main_relay_outcome s client_id data key wrap payload Hrelayed)
    as Hbody.
  destruct (m_target data) as [t|].
  2:{ by apply endpoint_turn_key_error. }
  destruct payload as [body|].
  2:{ by apply endpoint_turn_key_error. }
  destruct (Main.active_connections s !! t) as [ws|].
  2:{ by apply endpoint_turn_returns. }
  destruct (ws_connected ws).
  { by apply endpoint_turn_returns. }
  destruct (endpoint_turn_refused client_id data s s [] Hbody)
    as [Hgone Hclosed].
  by destruct kind.
Qed.

(** Ann's offer to Bob, whose peer is gone, disconnects Ann; an offer with
    an empty payload reaches Cleo; an answer without target raises. *)
Lemma main_relay_at_the_endpoint_witness :
  Main.endpoint_turn Main.PeerGone "c1"
    (VideoServer.offer_msg "c2" VideoServer.sdp) Main.main_trio
  = (Ret (), Main.disconnect "c1" Main.main_trio, [])
  ∧ Main.rooms (Main.disconnect "c1" Main.main_trio) !! "lobby"
    = Some ["c3"; "c2"; "c3"]
  ∧ Main.endpoint_turn Main.ClosedHere "c1"
      (VideoServer.offer_msg "c3" (JObj [])) Main.main_trio
    = (Ret (), Main.main_trio, [("c3", Main.offer "c1" (JObj []))])
  ∧ Main.endpoint_turn Main.PeerGone "c1" (typed "answer") Main.main_trio
    = (Raise (KeyError "target"), Main.main_trio, []).
Proof.
  split_and!.
  - rewrite (main_relay_at_the_endpoint _ _ _ "offer" Main.offer
               (Some VideoServer.sdp)); reflexivity.
  - vm_compute. reflexivity.
  - rewrite (main_relay_at_the_endpoint _ _ _ "offer" Main.offer
               (Some (JObj []))); reflexivity.
  - rewrite (main_relay_at_the_endpoint _ _ _ "answer" Main.answer None);
      reflexivity.
Defined.

Lemma endpoint_turn_state kind client_id data s :
  state_of (Main.endpoint_turn kind client_id data s) =
    match result_of (Main.on_message client_id data s), kind with
    | Raise ChannelError, Main.PeerGone =>
        Main.disconnect client_id
          (state_of (Main.on_message client_id data s))
    | _, _ => state_of (Main.on_message client_id data s)
    end.
Proof.
  unfold Main.endpoint_turn, try_except.
  destruct (Main.on_message client_id data s) as [[[a|e] s'] out]; [done|].
  by destruct e, kind.
Qed.

(** X21.  What a turn of the endpoint of [main.py] never does, whether the
    branch returns or raises.  It changes the channel of no connection
    other than the sender, deletes no room, and leaves every id other than
    the sender listed in every room as many times as before.  Unless a send
    is refused with [WebSocketDisconnect], the table of connections is as
    before, and a message that is neither a [join] nor a [leave] leaves the
    registry as it was.  When a send is refused with [WebSocketDisconnect],
    the [except] clause disconnects the sender: it is unregistered. *)
Theorem main_turn_spares_the_others (s : Main.ConnectionManager)
  (client_id : string) (data : inbound) (kind : Main.refusal) :
  let body := Main.on_message client_id data s in
  let s' := state_of (Main.endpoint_turn kind client_id data s) in
  (∀ u, u ≠ client_id →
     Main.active_connections s' !! u = Main.active_connections s !! u)
  ∧ (∀ r, is_Some (Main.rooms s !! r) → is_Some (Main.rooms s' !! r))
  ∧ (∀ r u, u ≠ client_id →
       occurrences u (default [] (Main.rooms s' !! r))
       = occurrences u (default [] (Main.rooms s !! r)))
  ∧ (kind = Main.ClosedHere ∨ result_of body ≠ Raise ChannelError →
     s' = state_of body
     ∧ Main.active_connections s' = Main.active_connections s
     ∧ (m_type data ≠ Some "join" → m_type data ≠ Some "leave" → s' = s))
  ∧ (kind = Main.PeerGone → result_of body = Raise ChannelError →
     s' = Main.disconnect client_id (state_of body)
     ∧ Main.active_connections s' !! client_id = None).
Proof.
  intros body s'.
  destruct (main_message_never_unregisters s client_id data)
    as (Hconns & Hrooms & Hocc & Hother).
  fold body in Hconns, Hrooms, Hocc, Hother.
  assert (s' = state_of body
          ∨ (kind = Main.PeerGone ∧ result_of body = Raise ChannelError
             ∧ s' = Main.disconnect client_id (state_of body))) as Hcases.
  { subst s'. rewrite endpoint_turn_state. fold body.
    destruct (result_of body) as [a|[key|]]; [by left|by left|].
    destruct kind; [right|left]; done. }
  assert (∀ r, Main.rooms (Main.disconnect client_id (state_of body)) !! r
               = list_remove client_id <$> Main.rooms (state_of body) !! r)
    as Hlookup.
  { intros r. cbn [Main.disconnect Main.rooms]. rewrite lookup_fmap.
    destruct (Main.rooms (state_of body) !! r) as [members|]; [|done]. cbn.
    case_decide; [done|]. by rewrite list_remove_not_in. }
  split_and!.
  - intros u Hu. destruct Hcases as [-> | (_ & _ & ->)].
    + by rewrite Hconns.
    + cbn [Main.disconnect Main.active_connections].
      rewrite lookup_delete_ne by done. by rewrite Hconns.
  - intros r Hr. apply Hrooms in Hr.
    destruct Hcases as [-> | (_ & _ & ->)]; [done|].
    rewrite Hlookup. destruct Hr as [members ->]. by eexists.
  - intros r u Hu. rewrite <- (Hocc r u Hu).
    destruct Hcases as [-> | (_ & _ & ->)]; [done|].
    rewrite Hlookup.
    destruct (Main.rooms (state_of body) !! r) as [members|]; [|done].
    cbn. by apply occurrences_list_remove_ne.
  - intros Hquiet.
    assert (s' = state_of body) as Hsame.
    { destruct Hcases as [Hsame | (Hkind & Hres & _)]; [done|].
      destruct Hquiet as [Hclosed | Hnot]; [congruence|done]. }
    rewrite Hsame. split_and!; [done|done|exact Hother].
  - intros Hkind Hres. subst s'. rewrite endpoint_turn_state. fold body.
    rewrite Hres, Hkind. split; [done|].
    cbn [Main.disconnect Main.active_connections]. apply lookup_delete_eq.
Qed.

(** Ann's offer to Bob, whose peer is gone: Cleo keeps her channel and her
    two listings, Ann is unregistered; a ping changes nothing. *)
Lemma main_turn_spares_the_others_witness :
  Main.active_connections
    (state_of (Main.endpoint_turn Main.PeerGone "c1"
                 (VideoServer.offer_msg "c2" VideoServer.sdp)
                 Main.main_trio)) !! "c3"
  = Some (socket 3)
  ∧ Main.active_connections
      (state_of (Main.endpoint_turn Main.PeerGone "c1"
                   (VideoServer.offer_msg "c2" VideoServer.sdp)
                   Main.main_trio)) !! "c1"
    = None
  ∧ state_of (Main.endpoint_turn Main.PeerGone "c1" (typed "ping")
                Main.main_trio)
    = Main.main_trio.
Proof.
  split_and!.
  - destruct (main_turn_spares_the_others Main.main_trio "c1"
                (VideoServer.offer_msg "c2" VideoServer.sdp) Main.PeerGone)
      as (Hothers & _).
    rewrite Hothers by discriminate. reflexivity.
  - destruct (main_turn_spares_the_others Main.main_trio "c1"
                (VideoServer.offer_msg "c2" VideoServer.sdp) Main.PeerGone)
      as (_ & _ & _ & _ & Hgone).
    apply Hgone; reflexivity.
  - destruct (main_turn_spares_the_others Main.main_trio "c1"
                (typed "ping") Main.PeerGone) as (_ & _ & _ & Hquiet & _).
    destruct Hquiet as (_ & _ & Hsame); [right; discriminate|].
    apply Hsame; discriminate.
Defined.

End MainExtra.
